(** * Pilosa server bootstrap: configuration wiring of cluster, node set
      and broadcaster

    A shallow embedding of the [server] package ([Command.Run],
    [PilosaBroadcaster], [PilosaCluster], [AssociateBroadcaster],
    [normalizeHost]), of [shardwidth.Exponent] and of [main].

    Go strings are byte sequences and are modelled by [string]; Go [int]
    values by [Z]; a nil interface value by [None]; a Go panic by the
    [Panic] constructor of [result]. *)

From Stdlib Require Import String Ascii List ZArith Lia Bool.
Import ListNotations.

Local Open Scope string_scope.

(** ** The [strings] package fragments the server package relies on *)

Module GoStrings.

(** [strings.HasPrefix(s, prefix)]. *)
Fixpoint HasPrefix (s prefix : string) {struct prefix} : bool :=
  match prefix with
  | EmptyString => true
  | String p prefix' =>
      match s with
      | EmptyString => false
      | String c s' => Ascii.eqb c p && HasPrefix s' prefix'
      end
  end.

(** [strings.Contains(s, substr)]: some suffix of [s] starts with
    [substr]. *)
Fixpoint Contains (s substr : string) : bool :=
  HasPrefix s substr ||
  match s with
  | EmptyString => false
  | String _ s' => Contains s' substr
  end.

(** The slice expression [s[n:]], for [n <= len(s)]; Go panics beyond
    that, which the callers below exclude by a [HasPrefix] guard. *)
Fixpoint slice_from (n : nat) (s : string) : string :=
  match n with
  | O => s
  | S n' =>
      match s with
      | EmptyString => EmptyString
      | String _ s' => slice_from n' s'
      end
  end.

(** [strings.TrimPrefix(s, prefix)]. *)
Definition TrimPrefix (s prefix : string) : string :=
  if HasPrefix s prefix then slice_from (String.length prefix) s else s.

End GoStrings.
Import GoStrings.

(** ** Errors, panics *)

(** A Go [error] value, identified with the text of its [Error()]. *)
Inductive error : Type :=
| errorString (msg : string).

Definition Error (e : error) : string :=
  match e with errorString msg => msg end.

(** What a Go panic was raised for. *)
Inductive panic_value : Type :=
| PanicAtoi                (* panic(err) after strconv.Atoi failed *)
| PanicNilDereference      (* field access through a nil pointer *)
| PanicTypeAssertion       (* x.(T) on a value of another dynamic type *)
| PanicCloseOfClosedChannel.

(** Outcome of a call that may panic. *)
Inductive result (A : Type) : Type :=
| Ok (a : A)
| Panic (p : panic_value).
Arguments Ok {A} a.
Arguments Panic {A} p.

(** ** shardwidth *)

(** [shardwidth/24.go]: the exponent of the default build. *)
Definition Exponent : Z := 24.

(** Modelled from the spec: the ShardMapper function, which package
    [shardwidth] does not contain; its contract reads
    [shardOf(columnAddress) = columnAddress >> E]. *)
Definition shardOf (columnAddress : Z) : Z :=
  Z.shiftr columnAddress Exponent.

(** The default data directory. *)
Definition DefaultDataDir : string := "~/.pilosa".

(** ** normalizeHost *)

Definition invalidSchemeError (host : string) : error :=
  errorString ("invalid scheme or host: '" ++ host
               ++ "'. use the format [http://]<host>:<port>").

(** [normalizeHost]; Go returns the pair (string, error) and so does the
    model, with [None] for a nil error. *)
Definition normalizeHost (host : string) : string * option error :=
  if negb (Contains host ":") then
    (host ++ ":", None)
  else if Contains host "://" then
    if HasPrefix host "http://" then
      (slice_from 7 host, None)
    else
      ("", Some (invalidSchemeError host))
  else
    (host, None).

(** ** strconv.Atoi *)

Definition digit_of (ch : ascii) : option Z :=
  let n := Z.of_N (N_of_ascii ch) in
  if (48 <=? n)%Z && (n <=? 57)%Z then Some (n - 48)%Z else None.

(** Value of a string of decimal digits, most significant first. *)
Fixpoint digits_value (acc : Z) (s : string) : option Z :=
  match s with
  | EmptyString => Some acc
  | String ch s' =>
      match digit_of ch with
      | Some d => digits_value (acc * 10 + d)%Z s'
      | None => None
      end
  end.

(** [strconv.Atoi] for a 64-bit [int]: an optional sign, at least one
    decimal digit, and a value that fits; [None] stands for any non-nil
    error. *)
Definition Atoi (s : string) : option Z :=
  let '(neg, body) :=
    match s with
    | String "-"%char s' => (true, s')
    | String "+"%char s' => (false, s')
    | _ => (false, s)
    end in
  match body with
  | EmptyString => None
  | _ =>
      match digits_value 0 body with
      | None => None
      | Some n =>
          let v := if neg then (- n)%Z else n in
          if (- 2 ^ 63 <=? v)%Z && (v <=? 2 ^ 63 - 1)%Z then Some v else None
      end
  end.

(** ** Data model of the [pilosa] package, as far as the server package
       touches it *)

(** Address of a heap object; [NewHTTPBroadcaster] and
    [NewGossipBroadcaster] keep the [*Server] they are given. *)
Definition ptr : Type := positive.

Record Node : Type := mkNode { Node_Host : string }.

Record HTTPBroadcaster : Type := mkHTTPBroadcaster { hb_server : ptr }.
Record GossipBroadcaster : Type := mkGossipBroadcaster { gb_server : ptr }.

(** The dynamic type and value behind a [pilosa.Broadcaster] interface. *)
Inductive Broadcaster : Type :=
| BroadcasterHTTP (b : HTTPBroadcaster)
| BroadcasterGossip (b : GossipBroadcaster)
| NopBroadcaster.

(** Modelled from the spec: [pilosa.NewHTTPBroadcaster], declared in
    package [pilosa]; the HTTP broadcaster for the given server. *)
Definition NewHTTPBroadcaster (server : ptr) : Broadcaster :=
  BroadcasterHTTP (mkHTTPBroadcaster server).

(** Modelled from the spec: [pilosa.NewGossipBroadcaster], declared in
    package [pilosa]; the gossip broadcaster for the given server. *)
Definition NewGossipBroadcaster (server : ptr) : Broadcaster :=
  BroadcasterGossip (mkGossipBroadcaster server).

Record GossipNodeSet : Type := mkGossipNodeSet {
  gns_name : string;
  gns_gossipHost : string;
  gns_gossipPort : Z;
  gns_gossipSeed : string;
  gns_broadcaster : option GossipBroadcaster
}.

(** The dynamic type and value behind a [pilosa.NodeSet] interface. *)
Inductive NodeSet : Type :=
| NodeSetHTTP (nodes : list Node)
| NodeSetGossip (g : GossipNodeSet)
| NodeSetStatic (nodes : list Node).

(** Modelled from the spec: [pilosa.NewHTTPNodeSet], declared in package
    [pilosa]; a fresh HTTP node set has no registered nodes. *)
Definition NewHTTPNodeSet : NodeSet := NodeSetHTTP [].

(** Modelled from the spec: [pilosa.NewStaticNodeSet], declared in package
    [pilosa]; a static node set holds the list stored by [join], none
    yet. *)
Definition NewStaticNodeSet : NodeSet := NodeSetStatic [].

(** Modelled from the spec: [pilosa.NewGossipNodeSet], declared in package
    [pilosa]; the node set keeps the name, bind host, port and seed it is
    constructed with and has no broadcaster until one is attached. *)
Definition NewGossipNodeSet (name gossipHost : string) (gossipPort : Z)
    (gossipSeed : string) : NodeSet :=
  NodeSetGossip (mkGossipNodeSet name gossipHost gossipPort gossipSeed None).

(** Modelled from the spec: [HTTPNodeSet.Join], declared in package
    [pilosa]; the node set stores the nodes it is joined to.  The call site
    asserts [cluster.NodeSet] to be an HTTP node set first, which is the
    match on the receiver. *)
Definition HTTPNodeSet_Join (receiver : option NodeSet) (nodes : list Node)
    : result NodeSet :=
  match receiver with
  | Some (NodeSetHTTP _) => Ok (NodeSetHTTP nodes)
  | _ => Panic PanicTypeAssertion
  end.

(** Modelled from the spec: [GossipNodeSet.AttachBroadcaster], declared in
    package [pilosa]; the node set keeps the broadcaster so that membership
    changes can trigger broadcasts. *)
Definition AttachBroadcaster (g : GossipNodeSet) (b : GossipBroadcaster)
    : GossipNodeSet :=
  mkGossipNodeSet (gns_name g) (gns_gossipHost g) (gns_gossipPort g)
                  (gns_gossipSeed g) (Some b).

Record Cluster : Type := mkCluster {
  Cluster_Nodes : list Node;
  Cluster_ReplicaN : Z;
  Cluster_NodeSet : option NodeSet
}.

Definition Cluster_set_ReplicaN (cl : Cluster) (n : Z) : Cluster :=
  mkCluster (Cluster_Nodes cl) n (Cluster_NodeSet cl).
Definition Cluster_set_Nodes (cl : Cluster) (ns : list Node) : Cluster :=
  mkCluster ns (Cluster_ReplicaN cl) (Cluster_NodeSet cl).
Definition Cluster_set_NodeSet (cl : Cluster) (s : NodeSet) : Cluster :=
  mkCluster (Cluster_Nodes cl) (Cluster_ReplicaN cl) (Some s).

(** An open file, by descriptor. *)
Definition File : Type := nat.

(** An [io.Writer]: a stream known by identity, or an opened file. *)
Inductive Writer : Type :=
| StreamWriter (id : nat)
| FileWriter (f : File).

Inductive StatsClient : Type :=
| NopStatsClient
| ExpvarStatsClient.

(** Modelled from the spec: [pilosa.NewExpvarStatsClient], declared in
    package [pilosa]; only its identity matters here. *)
Definition NewExpvarStatsClient : StatsClient := ExpvarStatsClient.

Record Index : Type := mkIndex {
  Index_Path : string;
  Index_Stats : StatsClient
}.

Record Server : Type := mkServer {
  Server_LogOutput : Writer;
  Server_Index : Index;
  Server_Host : string;
  Server_Broadcaster : option Broadcaster;
  Server_Cluster : option Cluster;
  Server_AntiEntropyInterval : Z
}.

Definition Server_set_LogOutput (s : Server) (w : Writer) : Server :=
  mkServer w (Server_Index s) (Server_Host s) (Server_Broadcaster s)
           (Server_Cluster s) (Server_AntiEntropyInterval s).
Definition Server_set_Index (s : Server) (i : Index) : Server :=
  mkServer (Server_LogOutput s) i (Server_Host s) (Server_Broadcaster s)
           (Server_Cluster s) (Server_AntiEntropyInterval s).
Definition Server_set_Host (s : Server) (h : string) : Server :=
  mkServer (Server_LogOutput s) (Server_Index s) h (Server_Broadcaster s)
           (Server_Cluster s) (Server_AntiEntropyInterval s).
Definition Server_set_Broadcaster (s : Server) (b : option Broadcaster)
    : Server :=
  mkServer (Server_LogOutput s) (Server_Index s) (Server_Host s) b
           (Server_Cluster s) (Server_AntiEntropyInterval s).
Definition Server_set_Cluster (s : Server) (c : option Cluster) : Server :=
  mkServer (Server_LogOutput s) (Server_Index s) (Server_Host s)
           (Server_Broadcaster s) c (Server_AntiEntropyInterval s).
Definition Server_set_AntiEntropyInterval (s : Server) (d : Z) : Server :=
  mkServer (Server_LogOutput s) (Server_Index s) (Server_Host s)
           (Server_Broadcaster s) (Server_Cluster s) d.

(** [pilosa.Config], the fields read at startup. *)
Record GossipConfig : Type := mkGossipConfig {
  Gossip_Port : Z;
  Gossip_Seed : string
}.

Record ClusterConfig : Type := mkClusterConfig {
  ClusterConfig_ReplicaN : Z;
  ClusterConfig_Nodes : list string;
  ClusterConfig_BroadcasterType : string;
  ClusterConfig_Gossip : GossipConfig
}.

Record Config : Type := mkConfig {
  Config_DataDir : string;
  Config_LogPath : string;
  Config_Host : string;
  Config_Cluster : ClusterConfig;
  Config_AntiEntropy_Interval : Z
}.

Definition Config_set_DataDir (c : Config) (d : string) : Config :=
  mkConfig d (Config_LogPath c) (Config_Host c) (Config_Cluster c)
           (Config_AntiEntropy_Interval c).

Definition BroadcasterType (c : Config) : string :=
  ClusterConfig_BroadcasterType (Config_Cluster c).

(** A channel that carries no values: only whether it was closed. *)
Inductive chan : Type :=
| ChanOpen
| ChanClosed.

(** [Command]: the pointees of [Server] and [Config] are held by value,
    [Command_ServerRef] is the address of the server; [Command_StderrOut]
    collects what has been written to [Stderr]. *)
Record Command : Type := mkCommand {
  Command_ServerRef : ptr;
  Command_Server : Server;
  Command_Config : Config;
  Command_CPUProfile : string;
  Command_CPUTime : Z;
  Command_Stderr : Writer;
  Command_StderrOut : list string;
  Command_Started : chan;
  Command_Done : chan
}.

Definition Command_set_Server (m : Command) (s : Server) : Command :=
  mkCommand (Command_ServerRef m) s (Command_Config m) (Command_CPUProfile m)
            (Command_CPUTime m) (Command_Stderr m) (Command_StderrOut m)
            (Command_Started m) (Command_Done m).
Definition Command_set_Config (m : Command) (c : Config) : Command :=
  mkCommand (Command_ServerRef m) (Command_Server m) c (Command_CPUProfile m)
            (Command_CPUTime m) (Command_Stderr m) (Command_StderrOut m)
            (Command_Started m) (Command_Done m).
Definition Command_set_Started (m : Command) (c : chan) : Command :=
  mkCommand (Command_ServerRef m) (Command_Server m) (Command_Config m)
            (Command_CPUProfile m) (Command_CPUTime m) (Command_Stderr m)
            (Command_StderrOut m) c (Command_Done m).

(** [fmt.Fprintf(m.Stderr, ...)] with the formatted text. *)
Definition Fprintf_Stderr (m : Command) (text : string) : Command :=
  mkCommand (Command_ServerRef m) (Command_Server m) (Command_Config m)
            (Command_CPUProfile m) (Command_CPUTime m) (Command_Stderr m)
            (Command_StderrOut m ++ [text]) (Command_Started m)
            (Command_Done m).

(** What [Run] reads from the operating system, and what [Server.Open]
    (a method of package [pilosa]) does to the server and returns. *)
Record World : Type := mkWorld {
  Getenv : string -> string;
  OpenFile : string -> File + error;
  Server_Open : Server -> Server * option error
}.

(** ** cmd/pilosa: [main] *)

(** What the process leaves behind: the lines printed on standard output
    and the exit status. *)
Record ProcessExit : Type := mkProcessExit {
  stdout : list string;
  exit_status : Z
}.

(** [main], as a function of what [rootCmd.Execute()] returned; the root
    command is built by package [cmd].  The two background
    goroutines (profiling listener, periodic memory release) take no part
    in the exit path. *)
Definition main (execute : option error) : ProcessExit :=
  match execute with
  | Some err => mkProcessExit [Error err ++ "
"] 1
  | None => mkProcessExit [] 0
  end.

(** ** What [Command.Close] and [NewCommand] need *)

Definition Command_set_Done (m : Command) (c : chan) : Command :=
  mkCommand (Command_ServerRef m) (Command_Server m) (Command_Config m)
            (Command_CPUProfile m) (Command_CPUTime m) (Command_Stderr m)
            (Command_StderrOut m) (Command_Started m) c.

(** An [io.Reader], known by identity. *)
Definition Reader : Type := nat.

(** What [Close] asks of the world: what [Server.Close] (a method of package
    [pilosa]) does to the server and returns, what closing a file returns,
    and for a stream whether its dynamic type has a [Close] method at all
    ([None] when it has none) and what that returns. *)
Record ShutdownWorld : Type := mkShutdownWorld {
  Server_Close : Server -> Server * option error;
  File_Close : File -> option error;
  Stream_Close : nat -> option (option error)
}.

(** The type assertion of [logOutput] to [io.Closer] followed by
    [closer.Close()]: [None] when the assertion fails, otherwise the error
    of the close.  An opened file always is a closer. *)
Definition closeIfCloser (w : ShutdownWorld) (logOutput : Writer)
    : option (option error) :=
  match logOutput with
  | FileWriter f => Some (File_Close w f)
  | StreamWriter id => Stream_Close w id
  end.

(** [fmt.Errorf] of [Close] when both closes fail. *)
Definition closingError (serveErr logErr : error) : error :=
  errorString ("closing server: '" ++ Error serveErr
               ++ "', closing logs: '" ++ Error logErr ++ "'").

(** ** Sample inputs *)

Definition sampleClusterConfig (broadcasterType : string) : ClusterConfig :=
  mkClusterConfig 2 ["node0:10101"; "node1:10101"; "node2:10101"]
                  broadcasterType (mkGossipConfig 0 "").

Definition sampleConfig (host broadcasterType : string) : Config :=
  mkConfig "/var/lib/pilosa" "" host (sampleClusterConfig broadcasterType) 600.

Definition sampleServer : Server :=
  mkServer (StreamWriter 2) (mkIndex "" NopStatsClient) "" None None 0.

Definition sampleCommand (c : Config) : Command :=
  mkCommand 1%positive sampleServer c "" 0 (StreamWriter 7) [] ChanOpen
            ChanOpen.

(** A world without HOME, where every file opens and the server opens. *)
Definition sampleWorld : World :=
  mkWorld (fun _ => "") (fun _ => inl 3) (fun s => (s, None)).

(** A world where nothing works: no HOME, no file opens, the server
    refuses to open. *)
Definition brokenWorld : World :=
  mkWorld (fun _ => "") (fun _ => inr (errorString "permission denied"))
          (fun s => (s, Some (errorString "address already in use"))).

(** Host part up to the first colon, standing in for [net.SplitHostPort]
    on the sample inputs. *)
Fixpoint sampleSplit (s : string) : string :=
  match s with
  | EmptyString => EmptyString
  | String ch s' => if Ascii.eqb ch ":" then EmptyString
                    else String ch (sampleSplit s')
  end.

Definition sampleSplitHostPort (s : string) : (string * string) + error :=
  if Contains s ":" then inl (sampleSplit s, "") else
    inr (errorString "missing port in address").

Definition sampleJoin (a b : string) : string := a ++ "/" ++ b.

(** A configuration that keeps its data under the home directory. *)
Definition sampleHomeConfig : Config :=
  mkConfig DefaultDataDir "" "localhost:10101" (sampleClusterConfig "static")
           600.

(** A server as the gossip wiring leaves it before the association. *)
Definition sampleGossipServer : Server :=
  mkServer (StreamWriter 2) (mkIndex "" NopStatsClient) "localhost:10101"
    (Some (NewGossipBroadcaster 1%positive))
    (Some (mkCluster [mkNode "node0:10101"] 1
             (Some (NewGossipNodeSet "localhost:10101" "localhost" 14000
                                     "seed:14000"))))
    0.

Definition sampleGossipPort : string := "14000".
Definition sampleDefaultHost : string := "localhost:10101".

(** A world where the server and every log output close without error, and
    one where both fail; streams are closers in both. *)
Definition sampleShutdownWorld : ShutdownWorld :=
  mkShutdownWorld (fun s => (s, None)) (fun _ => None) (fun _ => Some None).

Definition brokenShutdownWorld : ShutdownWorld :=
  mkShutdownWorld
    (fun s => (s, Some (errorString "listener already closed")))
    (fun _ => Some (errorString "file already closed"))
    (fun _ => Some (Some (errorString "stream already closed"))).

(** A world with a home directory where no log file opens. *)
Definition homeWorld : World :=
  mkWorld (fun _ => "/home/pilosa")
          (fun _ => inr (errorString "permission denied"))
          (fun s => (s, None)).

(** A configuration under the home directory that logs to a file. *)
Definition sampleLoggingConfig : Config :=
  mkConfig DefaultDataDir "/var/log/pilosa.log" "localhost:10101"
           (sampleClusterConfig "static") 600.

(** ** The server package *)

Section ServerPackage.

(** Constants declared in package [pilosa]. *)
Variable DefaultGossipPort : string.
Variable DefaultHost : string.
Variable DefaultReplicaN : Z.

(** The Go library functions whose results the code only passes on. *)
Variable Separator : ascii.                       (* filepath.Separator *)
Variable filepath_Join : string -> string -> string.
Variable SplitHostPort : string -> (string * string) + error.

(** Modelled from the spec: [pilosa.NewCluster], declared in package
    [pilosa]; a cluster is built from configuration, so a new one has no
    nodes and no node set yet. *)
Definition NewCluster : Cluster := mkCluster [] DefaultReplicaN None.

(** [PilosaBroadcaster]; the named result starts out nil and no case
    assigns it for other variant names. *)
Definition PilosaBroadcaster (c : Config) (server : ptr)
    : option Broadcaster :=
  let broadcaster : option Broadcaster := None in
  if BroadcasterType c =? "http" then Some (NewHTTPBroadcaster server)
  else if BroadcasterType c =? "gossip" then
    Some (NewGossipBroadcaster server)
  else if BroadcasterType c =? "static" then Some NopBroadcaster
  else broadcaster.

(** The loop [for _, hostport := range c.Cluster.Nodes]. *)
Definition appendNodes (cluster : Cluster) (hostports : list string)
    : Cluster :=
  fold_left
    (fun cl hostport =>
       Cluster_set_Nodes cl (Cluster_Nodes cl ++ [mkNode hostport]))
    hostports cluster.

(** [PilosaCluster]. *)
Definition PilosaCluster (c : Config) : result Cluster :=
  let cluster := NewCluster in
  let cluster :=
    Cluster_set_ReplicaN cluster (ClusterConfig_ReplicaN (Config_Cluster c)) in
  let cluster := appendNodes cluster (ClusterConfig_Nodes (Config_Cluster c)) in
  if BroadcasterType c =? "http" then
    let cluster := Cluster_set_NodeSet cluster NewHTTPNodeSet in
    match HTTPNodeSet_Join (Cluster_NodeSet cluster) (Cluster_Nodes cluster) with
    | Ok joined => Ok (Cluster_set_NodeSet cluster joined)
    | Panic p => Panic p
    end
  else if BroadcasterType c =? "gossip" then
    match Atoi DefaultGossipPort with
    | None => Panic PanicAtoi
    | Some gport =>
        let gossipPort := gport in
        let gossipSeed := DefaultHost in
        let gossipPort :=
          if negb (Gossip_Port (ClusterConfig_Gossip (Config_Cluster c)) =? 0)%Z
          then Gossip_Port (ClusterConfig_Gossip (Config_Cluster c))
          else gossipPort in
        let gossipSeed :=
          if negb (Gossip_Seed (ClusterConfig_Gossip (Config_Cluster c)) =? "")
          then Gossip_Seed (ClusterConfig_Gossip (Config_Cluster c))
          else gossipSeed in
        let gossipHost :=
          match SplitHostPort (Config_Host c) with
          | inl (host, _) => host
          | inr _ => Config_Host c
          end in
        Ok (Cluster_set_NodeSet cluster
              (NewGossipNodeSet (Config_Host c) gossipHost gossipPort
                                gossipSeed))
    end
  else if BroadcasterType c =? "static" then
    Ok (Cluster_set_NodeSet cluster NewStaticNodeSet)
  else
    Ok (Cluster_set_NodeSet cluster NewStaticNodeSet).

(** [AssociateBroadcaster]; the gossip case dereferences [s.Cluster] and
    asserts the dynamic types of the node set and of the broadcaster,
    receiver first. *)
Definition AssociateBroadcaster (s : Server) (c : Config) : result Server :=
  if BroadcasterType c =? "http" then Ok s
  else if BroadcasterType c =? "gossip" then
    match Server_Cluster s with
    | None => Panic PanicNilDereference
    | Some cluster =>
        match Cluster_NodeSet cluster with
        | Some (NodeSetGossip g) =>
            match Server_Broadcaster s with
            | Some (BroadcasterGossip b) =>
                Ok (Server_set_Cluster s
                      (Some (Cluster_set_NodeSet cluster
                               (NodeSetGossip (AttachBroadcaster g b)))))
            | _ => Panic PanicTypeAssertion
            end
        | _ => Panic PanicTypeAssertion
        end
    end
  else if BroadcasterType c =? "static" then Ok s
  else Ok s.

(** *** [Command.Run]

    The body is cut at its early returns; each piece takes the command
    as the pieces before left it and yields the command at the return
    together with the returned error, or the panic. *)

(** "Initialize server." *)
Definition Run_initialize (w : World) (m : Command)
    : Command * result (option error) :=
  let '(server, err) := Server_Open w (Command_Server m) in
  let m := Command_set_Server m server in
  match err with
  | Some e => (m, Ok (Some (errorString ("server.Open: " ++ Error e))))
  | None =>
      let m := Fprintf_Stderr m ("Listening as http://"
                                 ++ Server_Host (Command_Server m) ++ "
") in
      (m, Ok None)
  end.

(** "Build cluster from config file." up to "Set configuration
    options." *)
Definition Run_build_cluster (w : World) (m : Command)
    : Command * result (option error) :=
  let '(host, err) := normalizeHost (Config_Host (Command_Config m)) in
  let m := Command_set_Server m (Server_set_Host (Command_Server m) host) in
  match err with
  | Some e => (m, Ok (Some e))
  | None =>
      let m :=
        Command_set_Server m
          (Server_set_Broadcaster (Command_Server m)
             (PilosaBroadcaster (Command_Config m) (Command_ServerRef m))) in
      match PilosaCluster (Command_Config m) with
      | Panic p => (m, Panic p)
      | Ok cluster =>
          let m :=
            Command_set_Server m
              (Server_set_Cluster (Command_Server m) (Some cluster)) in
          match AssociateBroadcaster (Command_Server m) (Command_Config m) with
          | Panic p => (m, Panic p)
          | Ok server =>
              let m := Command_set_Server m server in
              let m :=
                Command_set_Server m
                  (Server_set_AntiEntropyInterval (Command_Server m)
                     (Config_AntiEntropy_Interval (Command_Config m))) in
              Run_initialize w m
          end
      end
  end.

(** "Configure index." *)
Definition Run_configure_index (w : World) (m : Command)
    : Command * result (option error) :=
  let m := Fprintf_Stderr m ("Using data from: "
                             ++ Config_DataDir (Command_Config m) ++ "
") in
  let m :=
    Command_set_Server m
      (Server_set_Index (Command_Server m)
         (mkIndex (Config_DataDir (Command_Config m))
                  (Index_Stats (Server_Index (Command_Server m))))) in
  let m :=
    Command_set_Server m
      (Server_set_Index (Command_Server m)
         (mkIndex (Index_Path (Server_Index (Command_Server m)))
                  NewExpvarStatsClient)) in
  Run_build_cluster w m.

(** "Setup logging output." *)
Definition Run_setup_logging (w : World) (m : Command)
    : Command * result (option error) :=
  if Config_LogPath (Command_Config m) =? "" then
    Run_configure_index w
      (Command_set_Server m
         (Server_set_LogOutput (Command_Server m) (Command_Stderr m)))
  else
    match OpenFile w (Config_LogPath (Command_Config m)) with
    | inr err => (m, Ok (Some err))
    | inl logFile =>
        Run_configure_index w
          (Command_set_Server m
             (Server_set_LogOutput (Command_Server m) (FileWriter logFile)))
    end.

Definition noHomeError : error :=
  errorString "data directory not specified and no home dir available".

(** The body of [Run] from its first statement after the [defer]. *)
Definition Run_body (w : World) (m : Command)
    : Command * result (option error) :=
  let prefix := "~" ++ String Separator "" in
  if HasPrefix (Config_DataDir (Command_Config m)) prefix then
    let HomeDir := Getenv w "HOME" in
    if HomeDir =? "" then (m, Ok (Some noHomeError))
    else
      Run_setup_logging w
        (Command_set_Config m
           (Config_set_DataDir (Command_Config m)
              (filepath_Join HomeDir
                 (TrimPrefix (Config_DataDir (Command_Config m)) prefix))))
  else Run_setup_logging w m.

(** [defer close(m.Started)]: runs when the body has returned or
    panicked; closing a closed channel panics. *)
Definition deferred_close_Started (r : Command * result (option error))
    : Command * result (option error) :=
  let '(m, outcome) := r in
  match Command_Started m with
  | ChanOpen => (Command_set_Started m ChanClosed, outcome)
  | ChanClosed => (m, Panic PanicCloseOfClosedChannel)
  end.

(** [Command.Run]. *)
Definition Run (w : World) (m : Command) : Command * result (option error) :=
  deferred_close_Started (Run_body w m).

(** [Command.Close]: the server is closed, then the log output if it is a
    closer, then [Done]; closing a closed [Done] panics with both closes
    already made. *)
Definition Close (w : ShutdownWorld) (m : Command)
    : Command * result (option error) :=
  let logErr : option error := None in
  let '(server, serveErr) := Server_Close w (Command_Server m) in
  let m := Command_set_Server m server in
  let logOutput := Server_LogOutput (Command_Server m) in
  let logErr :=
    match closeIfCloser w logOutput with
    | Some closeErr => closeErr
    | None => logErr
    end in
  match Command_Done m with
  | ChanClosed => (m, Panic PanicCloseOfClosedChannel)
  | ChanOpen =>
      let m := Command_set_Done m ChanClosed in
      match serveErr, logErr with
      | Some se, Some le => (m, Ok (Some (closingError se le)))
      | _, Some le => (m, Ok (Some le))
      | _, None => (m, Ok serveErr)
      end
  end.

(** [NewCommand], given what [pilosa.NewServer()] and [pilosa.NewConfig()]
    return (the new server with its address, the new configuration).  Of
    the three streams wrapped by [pilosa.NewCmdIO] this package reads
    [Stderr] only, and [Command] keeps only it; nothing has been written
    yet, the profiling options are zero and both channels are open. *)
Definition NewCommand (newServerRef : ptr) (newServer : Server)
    (newConfig : Config) (stdin : Reader) (stdout stderr : Writer)
    : Command :=
  mkCommand newServerRef newServer newConfig "" 0 stderr [] ChanOpen ChanOpen.

(** Whether the data-directory step of [Run] passes: the directory is not
    under the home prefix, or HOME is set. *)
Definition dataDirOK (w : World) (m : Command) : bool :=
  negb (HasPrefix (Config_DataDir (Command_Config m))
                  ("~" ++ String Separator ""))
  || negb (Getenv w "HOME" =? "").

(** Whether the logging step of [Run] passes: no log path, or the log
    file opens. *)
Definition logOK (w : World) (m : Command) : bool :=
  (Config_LogPath (Command_Config m) =? "")
  || match OpenFile w (Config_LogPath (Command_Config m)) with
     | inl _ => true
     | inr _ => false
     end.

(** The cluster before the node set is chosen. *)
Definition configuredCluster (c : Config) : Cluster :=
  mkCluster (map mkNode (ClusterConfig_Nodes (Config_Cluster c)))
            (ClusterConfig_ReplicaN (Config_Cluster c)) None.

(** The port and the seed the gossip node set is built with. *)
Definition chosenGossipPort (c : Config) (gport : Z) : Z :=
  if (Gossip_Port (ClusterConfig_Gossip (Config_Cluster c)) =? 0)%Z
  then gport
  else Gossip_Port (ClusterConfig_Gossip (Config_Cluster c)).

Definition chosenGossipSeed (c : Config) : string :=
  if Gossip_Seed (ClusterConfig_Gossip (Config_Cluster c)) =? ""
  then DefaultHost
  else Gossip_Seed (ClusterConfig_Gossip (Config_Cluster c)).

Definition chosenGossipHost (c : Config) : string :=
  match SplitHostPort (Config_Host c) with
  | inl (host, _) => host
  | inr _ => Config_Host c
  end.

(** The command as each passing step of [Run] leaves it. *)
Definition afterDataDir (w : World) (m : Command) : Command :=
  if HasPrefix (Config_DataDir (Command_Config m))
               ("~" ++ String Separator "")
  then
    Command_set_Config m
      (Config_set_DataDir (Command_Config m)
         (filepath_Join (Getenv w "HOME")
            (TrimPrefix (Config_DataDir (Command_Config m))
                        ("~" ++ String Separator ""))))
  else m.

Definition afterLogging (w : World) (m : Command) : Command :=
  if Config_LogPath (Command_Config m) =? "" then
    Command_set_Server m
      (Server_set_LogOutput (Command_Server m) (Command_Stderr m))
  else
    match OpenFile w (Config_LogPath (Command_Config m)) with
    | inl logFile =>
        Command_set_Server m
          (Server_set_LogOutput (Command_Server m) (FileWriter logFile))
    | inr _ => m
    end.

Definition afterIndex (m : Command) : Command :=
  let m := Fprintf_Stderr m ("Using data from: "
                             ++ Config_DataDir (Command_Config m) ++ "
") in
  Command_set_Server m
    (Server_set_Index (Command_Server m)
       (mkIndex (Config_DataDir (Command_Config m)) NewExpvarStatsClient)).

(** The command that [Run] hands to "Build cluster from config file"
    when the steps before it pass. *)
Definition beforeWiring (w : World) (m : Command) : Command :=
  afterIndex (afterLogging w (afterDataDir w m)).

(** The command after [m.Server.Host] is assigned the first result [h] of
    [normalizeHost]. *)
Definition hostSet (w : World) (m : Command) (h : string) : Command :=
  Command_set_Server (beforeWiring w m)
    (Server_set_Host (Command_Server (beforeWiring w m)) h).

(** The command after the broadcaster is assigned. *)
Definition broadcasterSet (w : World) (m : Command) (h : string) : Command :=
  Command_set_Server (hostSet w m h)
    (Server_set_Broadcaster (Command_Server (hostSet w m h))
       (PilosaBroadcaster (Command_Config (hostSet w m h))
                          (Command_ServerRef (hostSet w m h)))).

(** The command after the cluster [cl] is assigned. *)
Definition clusterSet (w : World) (m : Command) (h : string) (cl : Cluster)
    : Command :=
  Command_set_Server (broadcasterSet w m h)
    (Server_set_Cluster (Command_Server (broadcasterSet w m h)) (Some cl)).

(** The command on which [Server.Open] is called, [s'] being the server as
    [AssociateBroadcaster] left it. *)
Definition beforeOpen (w : World) (m : Command) (s' : Server) : Command :=
  Command_set_Server (beforeWiring w m)
    (Server_set_AntiEntropyInterval s'
       (Config_AntiEntropy_Interval (Command_Config (beforeWiring w m)))).

(** Two commands that differ at most in the server, the configuration and
    the output written. *)
Definition sameShell (m1 m2 : Command) : Prop :=
  Command_ServerRef m1 = Command_ServerRef m2 /\
  Command_CPUProfile m1 = Command_CPUProfile m2 /\
  Command_CPUTime m1 = Command_CPUTime m2 /\
  Command_Stderr m1 = Command_Stderr m2 /\
  Command_Started m1 = Command_Started m2 /\
  Command_Done m1 = Command_Done m2.

(** Two configurations that differ at most in the data directory. *)
Definition sameButDataDir (c1 c2 : Config) : Prop :=
  Config_LogPath c1 = Config_LogPath c2 /\
  Config_Host c1 = Config_Host c2 /\
  Config_Cluster c1 = Config_Cluster c2 /\
  Config_AntiEntropy_Interval c1 = Config_AntiEntropy_Interval c2.

(** The data directory after the first step of [Run]. *)
Definition resolvedDataDir (w : World) (m : Command) : string :=
  Config_DataDir (Command_Config (afterDataDir w m)).

(** The log output [Run] installs. *)
Definition chosenLogOutput (w : World) (m : Command) : Writer :=
  Server_LogOutput (Command_Server (afterLogging w m)).

(** The errors of the two closes made by [Close]: of the server, and of
    the log output of the closed server when that is a closer. *)
Definition serverCloseError (w : ShutdownWorld) (m : Command) : option error :=
  snd (Server_Close w (Command_Server m)).

Definition logCloseError (w : ShutdownWorld) (m : Command) : option error :=
  match closeIfCloser w
          (Server_LogOutput (fst (Server_Close w (Command_Server m)))) with
  | Some closeErr => closeErr
  | None => None
  end.

(** ** Facts about the string primitives *)

Lemma HasPrefix_app (p r : string) : HasPrefix (p ++ r) p = true.
Proof.
induction p as [|c p IH]; simpl.
- reflexivity.
- rewrite Ascii.eqb_refl. exact IH.
Qed.

Lemma HasPrefix_inv (s p : string) :
HasPrefix s p = true -> exists r, s = p ++ r.
Proof.
revert s. induction p as [|c p IH]; intros s H; simpl in *.
- exists s. reflexivity.
- destruct s as [|d s]; [discriminate|].
  apply andb_true_iff in H. destruct H as [Hc Hp].
  apply Ascii.eqb_eq in Hc. subst d.
  destruct (IH _ Hp) as [r ->]. exists r. reflexivity.
Qed.

Lemma HasPrefix_iff (s p : string) :
HasPrefix s p = true <-> exists r, s = p ++ r.
Proof.
split.
- apply HasPrefix_inv.
- intros [r ->]. apply HasPrefix_app.
Qed.

(** [Contains] is substring occurrence. *)
Lemma Contains_iff (s sub : string) :
Contains s sub = true <-> exists a b, s = a ++ sub ++ b.
Proof.
split.
- induction s as [|c s IH]; simpl; intros H.
  + rewrite orb_false_r in H. apply HasPrefix_inv in H.
    destruct H as [r Hr]. exists "", r. exact Hr.
  + apply orb_true_iff in H. destruct H as [H|H].
    * apply HasPrefix_inv in H. destruct H as [r Hr].
      exists "", r. exact Hr.
    * destruct (IH H) as (a & b & ->).
      exists (String c a), b. reflexivity.
- intros (a & b & ->). induction a as [|c a IH].
  + simpl. destruct (sub ++ b) eqn:E.
    * simpl. rewrite <- E. now rewrite HasPrefix_app.
    * simpl. rewrite <- E. now rewrite HasPrefix_app.
  + simpl. simpl in IH. rewrite IH. apply orb_true_r.
Qed.

Lemma Contains_of_HasPrefix (s p : string) :
HasPrefix s p = true -> Contains s p = true.
Proof.
intros H. destruct s; simpl; rewrite H; reflexivity.
Qed.

(** A host that contains the scheme separator contains a colon. *)
Lemma Contains_scheme_sep_colon (host : string) :
Contains host "://" = true -> Contains host ":" = true.
Proof.
intros H. apply Contains_iff in H. destruct H as (a & b & ->).
apply Contains_iff. exists a, ("//" ++ b). reflexivity.
Qed.

Lemma HasPrefix_http_Contains_sep (host : string) :
HasPrefix host "http://" = true -> Contains host "://" = true.
Proof.
intros H. apply HasPrefix_inv in H. destruct H as [r ->].
apply Contains_iff. exists "http", r. reflexivity.
Qed.

Lemma slice_from_app (p r : string) :
slice_from (String.length p) (p ++ r) = r.
Proof.
induction p as [|c p IH]; simpl; [reflexivity | exact IH].
Qed.

Lemma normalizeHost_no_colon (host : string) :
Contains host ":" = false -> normalizeHost host = (host ++ ":", None).
Proof.
intros H. unfold normalizeHost. rewrite H. reflexivity.
Qed.

Lemma normalizeHost_plain (host : string) :
Contains host ":" = true -> Contains host "://" = false ->
normalizeHost host = (host, None).
Proof.
intros H1 H2. unfold normalizeHost. rewrite H1, H2. reflexivity.
Qed.

Lemma normalizeHost_http (host : string) :
HasPrefix host "http://" = true ->
normalizeHost host = (slice_from 7 host, None).
Proof.
intros H. unfold normalizeHost.
pose proof (HasPrefix_http_Contains_sep host H) as Hsep.
rewrite (Contains_scheme_sep_colon host Hsep), Hsep, H. reflexivity.
Qed.

Lemma normalizeHost_bad_scheme (host : string) :
Contains host "://" = true -> HasPrefix host "http://" = false ->
normalizeHost host = ("", Some (invalidSchemeError host)).
Proof.
intros H1 H2. unfold normalizeHost.
rewrite (Contains_scheme_sep_colon host H1), H1, H2. reflexivity.
Qed.

Lemma normalizeHost_http_rest (rest : string) :
normalizeHost ("http://" ++ rest) = (rest, None).
Proof.
rewrite normalizeHost_http by apply HasPrefix_app.
change 7%nat with (String.length "http://").
now rewrite slice_from_app.
Qed.

(** C2: the exponent of the default build is 24 and the shard of an
  address is the address shifted right by it; addresses that agree after
  the shift by 24 share a shard, 2^24 lies in shard 1 and 2^24 - 1 in
  shard 0. *)
Theorem shardOf_default_build :
Exponent = 24%Z /\
(forall a : Z, shardOf a = Z.shiftr a Exponent) /\
(forall a1 a2 : Z,
    Z.shiftr a1 24 = Z.shiftr a2 24 -> shardOf a1 = shardOf a2) /\
shardOf 16777216 = 1%Z /\
shardOf 16777215 = 0%Z.
Proof.
split; [reflexivity|].
split; [intros a; reflexivity|].
split.
- intros a1 a2 H. unfold shardOf, Exponent. exact H.
- split; reflexivity.
Qed.

(** C8: [normalizeHost] returns on every host and its cases cover all
  hosts: without a colon the host gets a colon appended; with a colon but
  no scheme separator it is returned as it is; with the prefix http:// the
  first 7 characters are removed; none of these is an error.  The one
  remaining case is a scheme separator without that prefix. *)
Theorem normalizeHost_case_split (host : string) :
(Contains host ":" = false ->
   normalizeHost host = (host ++ ":", None)) /\
(Contains host ":" = true -> Contains host "://" = false ->
   normalizeHost host = (host, None)) /\
(HasPrefix host "http://" = true ->
   normalizeHost host = (slice_from 7 host, None)) /\
(forall rest, host = "http://" ++ rest ->
   normalizeHost host = (rest, None)) /\
(Contains host ":" = false \/
 (Contains host ":" = true /\ Contains host "://" = false) \/
 HasPrefix host "http://" = true \/
 (Contains host "://" = true /\ HasPrefix host "http://" = false)).
Proof.
split; [apply normalizeHost_no_colon|].
split; [apply normalizeHost_plain|].
split; [apply normalizeHost_http|].
split.
- intros rest ->. apply normalizeHost_http_rest.
- destruct (Contains host ":") eqn:Hc; [|now left].
  destruct (Contains host "://") eqn:Hs; [|right; left; now split].
  destruct (HasPrefix host "http://") eqn:Hp.
  + right; right; now left.
  + right; right; right; now split.
Qed.

(** ** Cluster construction *)

Lemma appendNodes_spec (hostports : list string) (cl : Cluster) :
  appendNodes cl hostports =
  mkCluster (Cluster_Nodes cl ++ map mkNode hostports)
            (Cluster_ReplicaN cl) (Cluster_NodeSet cl).
Proof.
  revert cl. induction hostports as [|h hs IH]; intros cl.
  - simpl. rewrite app_nil_r. now destruct cl.
  - unfold appendNodes in *. simpl. rewrite IH. simpl.
    now rewrite <- app_assoc.
Qed.

Lemma PilosaCluster_prefix (c : Config) :
  appendNodes
    (Cluster_set_ReplicaN NewCluster (ClusterConfig_ReplicaN (Config_Cluster c)))
    (ClusterConfig_Nodes (Config_Cluster c))
  = configuredCluster c.
Proof. rewrite appendNodes_spec. reflexivity. Qed.

Lemma PilosaCluster_http (c : Config) :
  BroadcasterType c = "http" ->
  PilosaCluster c =
  Ok (Cluster_set_NodeSet (configuredCluster c)
        (NodeSetHTTP (Cluster_Nodes (configuredCluster c)))).
Proof.
  intros H. unfold PilosaCluster. rewrite PilosaCluster_prefix, H.
  reflexivity.
Qed.

Lemma PilosaCluster_gossip (c : Config) (gport : Z) :
  BroadcasterType c = "gossip" ->
  Atoi DefaultGossipPort = Some gport ->
  PilosaCluster c =
  Ok (Cluster_set_NodeSet (configuredCluster c)
        (NodeSetGossip
           (mkGossipNodeSet (Config_Host c) (chosenGossipHost c)
              (chosenGossipPort c gport) (chosenGossipSeed c) None))).
Proof.
  intros H Hport. unfold PilosaCluster.
  rewrite PilosaCluster_prefix, H, Hport. simpl.
  unfold chosenGossipPort, chosenGossipSeed, chosenGossipHost,
    NewGossipNodeSet.
  destruct (Gossip_Port _ =? 0)%Z, (Gossip_Seed _ =? ""); reflexivity.
Qed.

Lemma PilosaCluster_static (c : Config) :
  BroadcasterType c = "static" ->
  PilosaCluster c =
  Ok (Cluster_set_NodeSet (configuredCluster c) NewStaticNodeSet).
Proof.
  intros H. unfold PilosaCluster. rewrite PilosaCluster_prefix, H.
  reflexivity.
Qed.

Lemma PilosaCluster_default (c : Config) :
  BroadcasterType c <> "http" ->
  BroadcasterType c <> "gossip" ->
  BroadcasterType c <> "static" ->
  PilosaCluster c =
  Ok (Cluster_set_NodeSet (configuredCluster c) NewStaticNodeSet).
Proof.
  intros H1 H2 H3. unfold PilosaCluster. rewrite PilosaCluster_prefix.
  apply String.eqb_neq in H1, H2, H3. rewrite H1, H2, H3. reflexivity.
Qed.

(** With a numeric default port [PilosaCluster] returns on every
    configuration, and what it returns extends [configuredCluster] by a
    node set. *)
Lemma PilosaCluster_returns (c : Config) (gport : Z) :
  Atoi DefaultGossipPort = Some gport ->
  exists ns,
    PilosaCluster c = Ok (Cluster_set_NodeSet (configuredCluster c) ns).
Proof.
  intros Hport.
  destruct (String.eqb_spec (BroadcasterType c) "http") as [E1|N1].
  { eexists. now apply PilosaCluster_http. }
  destruct (String.eqb_spec (BroadcasterType c) "gossip") as [E2|N2].
  { eexists. exact (PilosaCluster_gossip c gport E2 Hport). }
  destruct (String.eqb_spec (BroadcasterType c) "static") as [E3|N3].
  { eexists. now apply PilosaCluster_static. }
  eexists. now apply PilosaCluster_default.
Qed.

(** ** Broadcaster selection and association *)

Lemma PilosaBroadcaster_default (c : Config) (server : ptr) :
  BroadcasterType c <> "http" ->
  BroadcasterType c <> "gossip" ->
  BroadcasterType c <> "static" ->
  PilosaBroadcaster c server = None.
Proof.
  intros H1 H2 H3. unfold PilosaBroadcaster.
  apply String.eqb_neq in H1, H2, H3. now rewrite H1, H2, H3.
Qed.

Lemma AssociateBroadcaster_not_gossip (s : Server) (c : Config) :
  BroadcasterType c <> "gossip" -> AssociateBroadcaster s c = Ok s.
Proof.
  intros H. unfold AssociateBroadcaster. apply String.eqb_neq in H.
  rewrite H.
  now destruct (BroadcasterType c =? "http"), (BroadcasterType c =? "static").
Qed.

Lemma AssociateBroadcaster_gossip (s : Server) (c : Config)
    (cl : Cluster) (g : GossipNodeSet) (b : GossipBroadcaster) :
  BroadcasterType c = "gossip" ->
  Server_Cluster s = Some cl ->
  Cluster_NodeSet cl = Some (NodeSetGossip g) ->
  Server_Broadcaster s = Some (BroadcasterGossip b) ->
  AssociateBroadcaster s c =
  Ok (Server_set_Cluster s
        (Some (Cluster_set_NodeSet cl
                 (NodeSetGossip (AttachBroadcaster g b))))).
Proof.
  intros H Hcl Hns Hb. unfold AssociateBroadcaster.
  rewrite H, Hcl, Hns, Hb. reflexivity.
Qed.

(** What [Run] hands to [AssociateBroadcaster]: a server whose
    broadcaster and cluster were both made from the same configuration.
    The association then never panics. *)
Lemma AssociateBroadcaster_wired (s : Server) (c : Config) (server : ptr)
    (cl : Cluster) :
  PilosaCluster c = Ok cl ->
  exists s',
    AssociateBroadcaster
      (Server_set_Cluster
         (Server_set_Broadcaster s (PilosaBroadcaster c server)) (Some cl))
      c = Ok s'.
Proof.
  intros Hcl.
  destruct (String.eqb_spec (BroadcasterType c) "gossip") as [E|N].
  - unfold PilosaCluster in Hcl. rewrite PilosaCluster_prefix, E in Hcl.
    simpl in Hcl. destruct (Atoi DefaultGossipPort); [|discriminate].
    injection Hcl as <-.
    unfold AssociateBroadcaster, PilosaBroadcaster. rewrite E. simpl.
    eexists. reflexivity.
  - eexists. now apply AssociateBroadcaster_not_gossip.
Qed.

(** ** [Command.Run], step by step *)

Lemma Run_body_no_home (w : World) (m : Command) :
  HasPrefix (Config_DataDir (Command_Config m))
            ("~" ++ String Separator "") = true ->
  Getenv w "HOME" = "" ->
  Run_body w m = (m, Ok (Some noHomeError)).
Proof.
  intros Hp Hh. unfold Run_body. rewrite Hp, Hh. reflexivity.
Qed.

Lemma dataDirOK_false (w : World) (m : Command) :
  dataDirOK w m = false ->
  HasPrefix (Config_DataDir (Command_Config m))
            ("~" ++ String Separator "") = true /\
  Getenv w "HOME" = "".
Proof.
  unfold dataDirOK. intros H. apply orb_false_iff in H.
  destruct H as [H1 H2]. apply negb_false_iff in H1, H2.
  split; [exact H1 | now apply String.eqb_eq].
Qed.

Lemma Run_body_dataDirOK (w : World) (m : Command) :
  dataDirOK w m = true ->
  Run_body w m = Run_setup_logging w (afterDataDir w m).
Proof.
  unfold dataDirOK, Run_body, afterDataDir. intros H.
  destruct (HasPrefix _ _); [|reflexivity].
  simpl in H. apply negb_true_iff in H. now rewrite H.
Qed.

Lemma afterDataDir_frame (w : World) (m : Command) :
  Command_Server (afterDataDir w m) = Command_Server m /\
  Command_Started (afterDataDir w m) = Command_Started m /\
  Command_ServerRef (afterDataDir w m) = Command_ServerRef m /\
  Config_LogPath (Command_Config (afterDataDir w m))
    = Config_LogPath (Command_Config m) /\
  Config_Host (Command_Config (afterDataDir w m))
    = Config_Host (Command_Config m) /\
  Config_Cluster (Command_Config (afterDataDir w m))
    = Config_Cluster (Command_Config m).
Proof.
  unfold afterDataDir. destruct (HasPrefix _ _); repeat split.
Qed.

Lemma logOK_afterDataDir (w : World) (m : Command) :
  logOK w (afterDataDir w m) = logOK w m.
Proof.
  unfold logOK.
  destruct (afterDataDir_frame w m) as (_ & _ & _ & -> & _). reflexivity.
Qed.

Lemma Run_setup_logging_fails (w : World) (m : Command) (e : error) :
  Config_LogPath (Command_Config m) <> "" ->
  OpenFile w (Config_LogPath (Command_Config m)) = inr e ->
  Run_setup_logging w m = (m, Ok (Some e)).
Proof.
  intros Hp Ho. unfold Run_setup_logging.
  apply String.eqb_neq in Hp. now rewrite Hp, Ho.
Qed.

Lemma logOK_false (w : World) (m : Command) :
  logOK w m = false ->
  exists e,
    Config_LogPath (Command_Config m) <> "" /\
    OpenFile w (Config_LogPath (Command_Config m)) = inr e.
Proof.
  unfold logOK. intros H. apply orb_false_iff in H. destruct H as [H1 H2].
  apply String.eqb_neq in H1.
  destruct (OpenFile w _) as [f|e]; [discriminate|].
  exists e. now split.
Qed.

Lemma Run_setup_logging_logOK (w : World) (m : Command) :
  logOK w m = true ->
  Run_setup_logging w m = Run_build_cluster w (afterIndex (afterLogging w m)).
Proof.
  unfold logOK, Run_setup_logging, afterLogging. intros H.
  destruct (Config_LogPath _ =? ""); [reflexivity|].
  simpl in H. destruct (OpenFile w _); [reflexivity | discriminate].
Qed.

Lemma afterLogging_frame (w : World) (m : Command) :
  Command_Config (afterLogging w m) = Command_Config m /\
  Command_Started (afterLogging w m) = Command_Started m /\
  Command_ServerRef (afterLogging w m) = Command_ServerRef m /\
  Server_Broadcaster (Command_Server (afterLogging w m))
    = Server_Broadcaster (Command_Server m) /\
  Server_Cluster (Command_Server (afterLogging w m))
    = Server_Cluster (Command_Server m).
Proof.
  unfold afterLogging. destruct (_ =? ""); [repeat split|].
  destruct (OpenFile w _); repeat split.
Qed.

Lemma afterIndex_frame (m : Command) :
  Command_Config (afterIndex m) = Command_Config m /\
  Command_Started (afterIndex m) = Command_Started m /\
  Command_ServerRef (afterIndex m) = Command_ServerRef m /\
  Server_Broadcaster (Command_Server (afterIndex m))
    = Server_Broadcaster (Command_Server m) /\
  Server_Cluster (Command_Server (afterIndex m))
    = Server_Cluster (Command_Server m).
Proof. repeat split. Qed.

Lemma Run_build_cluster_host_error (w : World) (m : Command)
    (h : string) (e : error) :
  normalizeHost (Config_Host (Command_Config m)) = (h, Some e) ->
  Run_build_cluster w m =
  (Command_set_Server m (Server_set_Host (Command_Server m) h), Ok (Some e)).
Proof.
  intros H. unfold Run_build_cluster. now rewrite H.
Qed.

(** When the host normalizes and the cluster is built, the association
    does not panic and [Run] reaches [Server.Open]. *)
Lemma Run_build_cluster_wires (w : World) (m : Command)
    (h : string) (cl : Cluster) :
  normalizeHost (Config_Host (Command_Config m)) = (h, None) ->
  PilosaCluster (Command_Config m) = Ok cl ->
  exists s',
    AssociateBroadcaster
      (Server_set_Cluster
         (Server_set_Broadcaster
            (Server_set_Host (Command_Server m) h)
            (PilosaBroadcaster (Command_Config m) (Command_ServerRef m)))
         (Some cl))
      (Command_Config m) = Ok s' /\
    Run_build_cluster w m =
    Run_initialize w
      (Command_set_Server m
         (Server_set_AntiEntropyInterval s'
            (Config_AntiEntropy_Interval (Command_Config m)))).
Proof.
  intros Hh Hcl.
  destruct (AssociateBroadcaster_wired
              (Server_set_Host (Command_Server m) h) (Command_Config m)
              (Command_ServerRef m) _ Hcl) as [s' Hs'].
  exists s'. split; [exact Hs'|].
  unfold Run_build_cluster. rewrite Hh. cbn zeta.
  cbn [Command_Config Command_set_Server Command_Server Command_ServerRef].
  rewrite Hcl.
  cbn [Command_Config Command_set_Server Command_Server Command_ServerRef].
  rewrite Hs'. reflexivity.
Qed.

Lemma Run_initialize_outcome (w : World) (m : Command) :
  Command_Started (fst (Run_initialize w m)) = Command_Started m /\
  snd (Run_initialize w m) =
  Ok match snd (Server_Open w (Command_Server m)) with
     | Some e => Some (errorString ("server.Open: " ++ Error e))
     | None => None
     end.
Proof.
  unfold Run_initialize.
  destruct (Server_Open w (Command_Server m)) as [s' [e|]]; now split.
Qed.

Lemma deferred_close_open (m : Command) (r : result (option error)) :
  Command_Started m = ChanOpen ->
  deferred_close_Started (m, r) = (Command_set_Started m ChanClosed, r).
Proof.
  intros H. unfold deferred_close_Started. now rewrite H.
Qed.

Lemma Run_of_body (w : World) (m : Command) :
  Command_Started (fst (Run_body w m)) = ChanOpen ->
  Run w m =
  (Command_set_Started (fst (Run_body w m)) ChanClosed, snd (Run_body w m)).
Proof.
  intros H. unfold Run. destruct (Run_body w m) as [m' r].
  now apply deferred_close_open.
Qed.

Lemma beforeWiring_frame (w : World) (m : Command) :
  Command_Started (beforeWiring w m) = Command_Started m /\
  Command_ServerRef (beforeWiring w m) = Command_ServerRef m /\
  Config_Host (Command_Config (beforeWiring w m))
    = Config_Host (Command_Config m) /\
  Config_Cluster (Command_Config (beforeWiring w m))
    = Config_Cluster (Command_Config m) /\
  Server_Broadcaster (Command_Server (beforeWiring w m))
    = Server_Broadcaster (Command_Server m) /\
  Server_Cluster (Command_Server (beforeWiring w m))
    = Server_Cluster (Command_Server m).
Proof.
  unfold beforeWiring.
  destruct (afterIndex_frame (afterLogging w (afterDataDir w m)))
    as (Ec & Es & Er & Eb & El).
  destruct (afterLogging_frame w (afterDataDir w m))
    as (Ec' & Es' & Er' & Eb' & El').
  destruct (afterDataDir_frame w m) as (Esv & Es'' & Er'' & _ & Eh & Ecl).
  rewrite Ec, Es, Er, Eb, El, Ec', Es', Er', Eb', El', Esv, Es'', Er''.
  repeat split; assumption.
Qed.

Lemma Run_body_passes (w : World) (m : Command) :
  dataDirOK w m = true -> logOK w m = true ->
  Run_body w m = Run_build_cluster w (beforeWiring w m).
Proof.
  intros Hd Hl. rewrite (Run_body_dataDirOK w m Hd).
  rewrite Run_setup_logging_logOK by now rewrite logOK_afterDataDir.
  reflexivity.
Qed.

(** A host that does not normalize makes [Run_body] return an error with
    the channel, the broadcaster and the cluster as they were, whatever
    the earlier steps do. *)
Lemma Run_body_host_error (w : World) (m : Command) (h : string)
    (e : error) :
  normalizeHost (Config_Host (Command_Config m)) = (h, Some e) ->
  (exists e', snd (Run_body w m) = Ok (Some e')) /\
  (dataDirOK w m = true -> logOK w m = true ->
     snd (Run_body w m) = Ok (Some e)) /\
  Command_Started (fst (Run_body w m)) = Command_Started m /\
  Server_Broadcaster (Command_Server (fst (Run_body w m)))
    = Server_Broadcaster (Command_Server m) /\
  Server_Cluster (Command_Server (fst (Run_body w m)))
    = Server_Cluster (Command_Server m).
Proof.
  intros Hh.
  destruct (dataDirOK w m) eqn:Hd.
  - destruct (logOK w m) eqn:Hl.
    + rewrite (Run_body_passes w m Hd Hl).
      destruct (beforeWiring_frame w m) as (Es & _ & Eh & _ & Eb & Ec).
      rewrite (Run_build_cluster_host_error w (beforeWiring w m) h e)
        by now rewrite Eh.
      cbn [fst snd]. split; [now exists e|]. split; [reflexivity|].
      repeat split; assumption.
    + rewrite (Run_body_dataDirOK w m Hd).
      rewrite <- logOK_afterDataDir in Hl.
      destruct (logOK_false _ _ Hl) as (e' & Hp & Ho).
      rewrite (Run_setup_logging_fails _ _ e' Hp Ho). cbn [fst snd].
      destruct (afterDataDir_frame w m) as (Esv & Es & _).
      rewrite Esv, Es.
      split; [now exists e'|]. split; [discriminate|]. now repeat split.
  - destruct (dataDirOK_false w m Hd) as [Hp Hhome].
    rewrite (Run_body_no_home w m Hp Hhome). cbn [fst snd].
    split; [now eexists|]. split; [discriminate|]. now repeat split.
Qed.

(** When every step before [Server.Open] passes, [Run] is the deferred
    close after [Run_initialize] on a command that carries the wired
    server. *)
Lemma Run_reaches_Open (w : World) (m : Command) (h : string)
    (cl : Cluster) :
  Command_Started m = ChanOpen ->
  dataDirOK w m = true -> logOK w m = true ->
  normalizeHost (Config_Host (Command_Config m)) = (h, None) ->
  PilosaCluster (Command_Config (beforeWiring w m)) = Ok cl ->
  exists s',
    AssociateBroadcaster
      (Server_set_Cluster
         (Server_set_Broadcaster
            (Server_set_Host (Command_Server (beforeWiring w m)) h)
            (PilosaBroadcaster (Command_Config (beforeWiring w m))
                               (Command_ServerRef m)))
         (Some cl))
      (Command_Config (beforeWiring w m)) = Ok s' /\
    let mo :=
      Command_set_Server (beforeWiring w m)
        (Server_set_AntiEntropyInterval s'
           (Config_AntiEntropy_Interval (Command_Config (beforeWiring w m))))
    in
    Run w m = deferred_close_Started (Run_initialize w mo) /\
    Run w m =
    (Command_set_Started (fst (Run_initialize w mo)) ChanClosed,
     Ok match snd (Server_Open w (Command_Server mo)) with
        | Some e => Some (errorString ("server.Open: " ++ Error e))
        | None => None
        end).
Proof.
  intros Hs Hd Hl Hh Hcl.
  destruct (beforeWiring_frame w m) as (Es & Er & Eh & _).
  rewrite <- Eh in Hh.
  destruct (Run_build_cluster_wires w (beforeWiring w m) h cl Hh Hcl)
    as (s' & Ha & Hrun).
  rewrite Er in Ha. exists s'. split; [exact Ha|].
  intros mo.
  assert (Hbody : Run_body w m = Run_initialize w mo).
  { rewrite (Run_body_passes w m Hd Hl). exact Hrun. }
  destruct (Run_initialize_outcome w mo) as [Hst Hout].
  split; [unfold Run; now rewrite Hbody|].
  rewrite Run_of_body; rewrite Hbody.
  - now rewrite Hout.
  - rewrite Hst. subst mo. cbn [Command_Started Command_set_Server].
    now rewrite Es.
Qed.

Lemma beforeWiring_cluster_config (w : World) (m : Command) :
  BroadcasterType (Command_Config (beforeWiring w m))
    = BroadcasterType (Command_Config m) /\
  configuredCluster (Command_Config (beforeWiring w m))
    = configuredCluster (Command_Config m).
Proof.
  destruct (beforeWiring_frame w m) as (_ & _ & _ & Ecl & _).
  unfold BroadcasterType, configuredCluster. now rewrite Ecl.
Qed.

(** ** The claims *)

(** C1 (as amended): a variant name other than static, http and gossip is
    not reported as an error.  [PilosaCluster] takes its default case and
    returns the configured cluster with a static node set,
    [AssociateBroadcaster] does nothing, and when the steps before pass
    [Run] calls [Server.Open] on a server holding that cluster and
    returns what [Open] decides. *)
Theorem unknown_variant_falls_back_to_static (w : World) (m : Command) :
  BroadcasterType (Command_Config m) <> "static" ->
  BroadcasterType (Command_Config m) <> "http" ->
  BroadcasterType (Command_Config m) <> "gossip" ->
  PilosaCluster (Command_Config m) =
    Ok (Cluster_set_NodeSet (configuredCluster (Command_Config m))
                            NewStaticNodeSet) /\
  (forall s, AssociateBroadcaster s (Command_Config m) = Ok s) /\
  (Command_Started m = ChanOpen ->
   dataDirOK w m = true -> logOK w m = true ->
   snd (normalizeHost (Config_Host (Command_Config m))) = None ->
   exists mo,
     Server_Cluster (Command_Server mo) =
       Some (Cluster_set_NodeSet (configuredCluster (Command_Config m))
                                 NewStaticNodeSet) /\
     snd (Run w m) =
       Ok match snd (Server_Open w (Command_Server mo)) with
          | Some e => Some (errorString ("server.Open: " ++ Error e))
          | None => None
          end).
Proof.
  intros Hs Hh Hg.
  split; [now apply PilosaCluster_default|].
  split; [intros s; now apply AssociateBroadcaster_not_gossip|].
  intros Hst Hd Hl Hn.
  destruct (normalizeHost (Config_Host (Command_Config m))) as [h oe] eqn:Hnh.
  cbn [snd] in Hn. subst oe.
  destruct (beforeWiring_cluster_config w m) as [Ebt Ecc].
  assert (Hcl : PilosaCluster (Command_Config (beforeWiring w m)) =
                Ok (Cluster_set_NodeSet
                      (configuredCluster (Command_Config m))
                      NewStaticNodeSet)).
  { rewrite <- Ecc. apply PilosaCluster_default; now rewrite Ebt. }
  destruct (Run_reaches_Open w m h _ Hst Hd Hl Hnh Hcl)
    as (s' & Ha & _ & Hrun).
  rewrite AssociateBroadcaster_not_gossip in Ha by now rewrite Ebt.
  injection Ha as <-. cbv zeta in Hrun.
  eexists. split; [|rewrite Hrun; reflexivity]. reflexivity.
Qed.

(** C3: the variant is selected by the configured BroadcasterType: http
    gives an HTTP broadcaster and an HTTP node set joined to the
    configured nodes, gossip a gossip broadcaster and a gossip node set,
    static the no-op broadcaster and a static node set. *)
Theorem variant_factory (c : Config) (server : ptr) (gport : Z) :
  (BroadcasterType c = "http" ->
     PilosaBroadcaster c server = Some (NewHTTPBroadcaster server) /\
     exists cl,
       PilosaCluster c = Ok cl /\
       Cluster_NodeSet cl =
         Some (NodeSetHTTP
                 (map mkNode (ClusterConfig_Nodes (Config_Cluster c))))) /\
  (BroadcasterType c = "gossip" ->
   Atoi DefaultGossipPort = Some gport ->
     PilosaBroadcaster c server = Some (NewGossipBroadcaster server) /\
     exists cl g,
       PilosaCluster c = Ok cl /\
       Cluster_NodeSet cl = Some (NodeSetGossip g)) /\
  (BroadcasterType c = "static" ->
     PilosaBroadcaster c server = Some NopBroadcaster /\
     exists cl,
       PilosaCluster c = Ok cl /\
       Cluster_NodeSet cl = Some NewStaticNodeSet).
Proof.
  split; [|split].
  - intros H. split.
    + unfold PilosaBroadcaster. now rewrite H.
    + eexists. split; [now apply PilosaCluster_http | reflexivity].
  - intros H Hport. split.
    + unfold PilosaBroadcaster. now rewrite H.
    + do 2 eexists.
      split; [exact (PilosaCluster_gossip c gport H Hport) | reflexivity].
  - intros H. split.
    + unfold PilosaBroadcaster. now rewrite H.
    + eexists. split; [now apply PilosaCluster_static | reflexivity].
Qed.

(** C4: a host with a scheme separator that does not start with http://
    is an error of [normalizeHost]; [Run] then returns an error (that very
    error once the data directory and the log output are settled) and
    leaves the server's broadcaster and cluster as they were.  A host
    that starts with http:// loses that prefix and gives no error. *)
Theorem bad_scheme_host_aborts_Run :
  (forall (w : World) (m : Command),
      Contains (Config_Host (Command_Config m)) "://" = true ->
      HasPrefix (Config_Host (Command_Config m)) "http://" = false ->
      Command_Started m = ChanOpen ->
      normalizeHost (Config_Host (Command_Config m)) =
        ("", Some (invalidSchemeError (Config_Host (Command_Config m)))) /\
      (exists e, snd (Run w m) = Ok (Some e)) /\
      (dataDirOK w m = true -> logOK w m = true ->
         snd (Run w m) =
         Ok (Some (invalidSchemeError (Config_Host (Command_Config m))))) /\
      Server_Broadcaster (Command_Server (fst (Run w m)))
        = Server_Broadcaster (Command_Server m) /\
      Server_Cluster (Command_Server (fst (Run w m)))
        = Server_Cluster (Command_Server m)) /\
  (forall rest : string,
      normalizeHost ("http://" ++ rest) = (rest, None)).
Proof.
  split.
  - intros w m Hc Hp Hst.
    pose proof (normalizeHost_bad_scheme _ Hc Hp) as Hn.
    split; [exact Hn|].
    destruct (Run_body_host_error w m _ _ Hn) as (He & Hsame & Hs & Hb & Hcl).
    rewrite Run_of_body by now rewrite Hs.
    cbn [fst snd Command_Server Command_set_Started].
    repeat split; assumption.
  - intros rest.
    apply normalizeHost_http_rest.
Qed.

(** C5: the cluster is built from the configuration alone: its ReplicaN
    is the configured replica factor and its nodes are the configured
    hostports, one node each, in the configured order. *)
Theorem PilosaCluster_from_config (c : Config) (gport : Z) :
  Atoi DefaultGossipPort = Some gport ->
  exists cl,
    PilosaCluster c = Ok cl /\
    Cluster_ReplicaN cl = ClusterConfig_ReplicaN (Config_Cluster c) /\
    Cluster_Nodes cl = map mkNode (ClusterConfig_Nodes (Config_Cluster c)) /\
    map Node_Host (Cluster_Nodes cl) = ClusterConfig_Nodes (Config_Cluster c) /\
    length (Cluster_Nodes cl) = length (ClusterConfig_Nodes (Config_Cluster c)).
Proof.
  intros Hport. destruct (PilosaCluster_returns c gport Hport) as [ns Hcl].
  eexists. split; [exact Hcl|]. cbn.
  split; [reflexivity|]. split; [reflexivity|].
  split.
  - rewrite map_map. cbn. apply map_id.
  - apply length_map.
Qed.

(** C6: [AssociateBroadcaster] attaches the server's broadcaster to the
    cluster's node set when the variant is gossip, and only then: for
    http, for static and for any other name the server comes back as it
    went in. *)
Theorem AssociateBroadcaster_only_gossip (s : Server) (c : Config) :
  (BroadcasterType c = "gossip" ->
   forall cl g b,
     Server_Cluster s = Some cl ->
     Cluster_NodeSet cl = Some (NodeSetGossip g) ->
     Server_Broadcaster s = Some (BroadcasterGossip b) ->
     exists g',
       AssociateBroadcaster s c =
         Ok (Server_set_Cluster s
               (Some (Cluster_set_NodeSet cl (NodeSetGossip g')))) /\
       gns_broadcaster g' = Some b /\
       gns_name g' = gns_name g /\
       gns_gossipHost g' = gns_gossipHost g /\
       gns_gossipPort g' = gns_gossipPort g /\
       gns_gossipSeed g' = gns_gossipSeed g) /\
  (BroadcasterType c = "http" -> AssociateBroadcaster s c = Ok s) /\
  (BroadcasterType c = "static" -> AssociateBroadcaster s c = Ok s) /\
  (BroadcasterType c <> "gossip" -> AssociateBroadcaster s c = Ok s).
Proof.
  split; [|split; [|split]].
  - intros H cl g b Hcl Hns Hb. exists (AttachBroadcaster g b).
    split; [now apply AssociateBroadcaster_gossip|]. now repeat split.
  - intros H. apply AssociateBroadcaster_not_gossip. now rewrite H.
  - intros H. apply AssociateBroadcaster_not_gossip. now rewrite H.
  - apply AssociateBroadcaster_not_gossip.
Qed.

(** C7: each error of the startup steps of [Run] reaches the caller as a
    non-nil error: the missing home directory, the error of opening the
    log file, the error of [normalizeHost], and the error of
    [Server.Open] behind the text server.Open; [main] prints the error it
    is handed and exits with status 1. *)
Theorem Run_errors_propagate (w : World) (m : Command) (gport : Z) :
  Command_Started m = ChanOpen ->
  Atoi DefaultGossipPort = Some gport ->
  (dataDirOK w m = false ->
     snd (Run w m) = Ok (Some noHomeError) /\
     Error noHomeError =
       "data directory not specified and no home dir available") /\
  (forall e,
      dataDirOK w m = true ->
      Config_LogPath (Command_Config m) <> "" ->
      OpenFile w (Config_LogPath (Command_Config m)) = inr e ->
      snd (Run w m) = Ok (Some e)) /\
  (forall h e,
      dataDirOK w m = true -> logOK w m = true ->
      normalizeHost (Config_Host (Command_Config m)) = (h, Some e) ->
      snd (Run w m) = Ok (Some e)) /\
  (forall h,
      dataDirOK w m = true -> logOK w m = true ->
      normalizeHost (Config_Host (Command_Config m)) = (h, None) ->
      exists mo,
        Run w m = deferred_close_Started (Run_initialize w mo) /\
        forall e,
          snd (Server_Open w (Command_Server mo)) = Some e ->
          snd (Run w m) =
            Ok (Some (errorString ("server.Open: " ++ Error e)))) /\
  (forall e,
      snd (Run w m) = Ok (Some e) ->
      main (Some e) = mkProcessExit [Error e ++ "
"] 1).
Proof.
  intros Hst Hport.
  split; [|split; [|split; [|split]]].
  - intros Hd. destruct (dataDirOK_false w m Hd) as [Hp Hh].
    split; [|reflexivity].
    rewrite Run_of_body; rewrite (Run_body_no_home w m Hp Hh);
      [reflexivity | exact Hst].
  - intros e Hd Hp Ho.
    destruct (afterDataDir_frame w m) as (_ & Es & _ & El & _).
    assert (Hbody : Run_body w m = (afterDataDir w m, Ok (Some e))).
    { rewrite (Run_body_dataDirOK w m Hd).
      apply Run_setup_logging_fails; now rewrite El. }
    rewrite Run_of_body; rewrite Hbody; [reflexivity|].
    cbn [fst]. now rewrite Es.
  - intros h e Hd Hl Hn.
    destruct (Run_body_host_error w m h e Hn) as (_ & Hsame & Hs & _).
    rewrite Run_of_body by now rewrite Hs.
    cbn [snd]. now apply Hsame.
  - intros h Hd Hl Hn.
    destruct (PilosaCluster_returns (Command_Config (beforeWiring w m))
                gport Hport) as [ns Hcl].
    destruct (Run_reaches_Open w m h _ Hst Hd Hl Hn Hcl)
      as (s' & _ & Hdef & Hrun).
    cbv zeta in Hdef, Hrun.
    eexists. split; [exact Hdef|].
    intros e He. rewrite Hrun. cbn [snd]. now rewrite He.
  - intros e _. reflexivity.
Qed.

(** C9: with a data directory under the home prefix and an empty HOME,
    [Run] returns the error "data directory not specified and no home dir
    available" before any setup: the server (its log output, index path,
    host, broadcaster and cluster among the rest), the configuration and
    the output written so far are as they were. *)
Theorem Run_without_home (w : World) (m : Command) :
  HasPrefix (Config_DataDir (Command_Config m))
            ("~" ++ String Separator "") = true ->
  Getenv w "HOME" = "" ->
  Command_Started m = ChanOpen ->
  snd (Run w m) =
    Ok (Some (errorString
                "data directory not specified and no home dir available")) /\
  Command_Server (fst (Run w m)) = Command_Server m /\
  Server_LogOutput (Command_Server (fst (Run w m)))
    = Server_LogOutput (Command_Server m) /\
  Index_Path (Server_Index (Command_Server (fst (Run w m))))
    = Index_Path (Server_Index (Command_Server m)) /\
  Server_Host (Command_Server (fst (Run w m)))
    = Server_Host (Command_Server m) /\
  Server_Broadcaster (Command_Server (fst (Run w m)))
    = Server_Broadcaster (Command_Server m) /\
  Server_Cluster (Command_Server (fst (Run w m)))
    = Server_Cluster (Command_Server m) /\
  Command_Config (fst (Run w m)) = Command_Config m /\
  Command_StderrOut (fst (Run w m)) = Command_StderrOut m.
Proof.
  intros Hp Hh Hst.
  rewrite Run_of_body; rewrite (Run_body_no_home w m Hp Hh);
    [|exact Hst].
  cbn. repeat split.
Qed.

(** C10: for the gossip variant the node set gets the configured gossip
    port unless that is zero, when it gets the default gossip port, and
    the configured seed unless that is empty, when it gets the default
    host. *)
Theorem gossip_port_and_seed (c : Config) (gport : Z) :
  BroadcasterType c = "gossip" ->
  Atoi DefaultGossipPort = Some gport ->
  exists cl g,
    PilosaCluster c = Ok cl /\
    Cluster_NodeSet cl = Some (NodeSetGossip g) /\
    gns_gossipPort g =
      (if (Gossip_Port (ClusterConfig_Gossip (Config_Cluster c)) =? 0)%Z
       then gport
       else Gossip_Port (ClusterConfig_Gossip (Config_Cluster c))) /\
    gns_gossipSeed g =
      (if Gossip_Seed (ClusterConfig_Gossip (Config_Cluster c)) =? ""
       then DefaultHost
       else Gossip_Seed (ClusterConfig_Gossip (Config_Cluster c))).
Proof.
  intros H Hport. do 2 eexists.
  split; [exact (PilosaCluster_gossip c gport H Hport)|].
  split; [reflexivity|]. split; reflexivity.
Qed.

(** ** Further properties of the package *)

(** *** [normalizeHost] *)

Lemma Contains_app_colon (host : string) : Contains (host ++ ":") ":" = true.
Proof.
  apply Contains_iff. exists host, "". reflexivity.
Qed.

(** Appending a colon to a host without one cannot create a scheme
    separator. *)
Lemma no_colon_no_scheme_sep (host : string) :
  Contains host ":" = false -> Contains (host ++ ":") "://" = false.
Proof.
  induction host as [|c host IH]; intros H.
  - reflexivity.
  - cbn [Contains] in H. apply orb_false_iff in H. destruct H as [Hp Hc].
    cbn [HasPrefix] in Hp. rewrite andb_true_r in Hp.
    change (String c host ++ ":") with (String c (host ++ ":")).
    cbn [Contains]. rewrite (IH Hc), orb_false_r.
    cbn [HasPrefix]. now rewrite Hp.
Qed.

(** [normalizeHost] fails exactly on a host with a scheme separator that
    does not start with http://, and then returns the empty string beside
    the error that quotes the host. *)
Theorem normalizeHost_error_iff (host : string) :
  (snd (normalizeHost host) = None <->
     Contains host "://" = false \/ HasPrefix host "http://" = true) /\
  (snd (normalizeHost host) <> None ->
     normalizeHost host = ("", Some (invalidSchemeError host))).
Proof.
  destruct (Contains host "://") eqn:Hs.
  - destruct (HasPrefix host "http://") eqn:Hp.
    + rewrite (normalizeHost_http host Hp). cbn. split.
      * split; [now right | reflexivity].
      * intros H. now contradiction H.
    + rewrite (normalizeHost_bad_scheme host Hs Hp). cbn. split.
      * split; [discriminate | intros [H|H]; discriminate].
      * reflexivity.
  - assert (Hok : snd (normalizeHost host) = None).
    { destruct (Contains host ":") eqn:Hc.
      - now rewrite (normalizeHost_plain host Hc Hs).
      - now rewrite (normalizeHost_no_colon host Hc). }
    split.
    + split; [now left | intros _; exact Hok].
    + intros H. now contradiction H.
Qed.

(** A host without a scheme separator normalizes without error to a string
    that starts with the host and contains a colon, and normalizing that
    string again returns it unchanged. *)
Theorem normalizeHost_schemeless_stable (host : string) :
  Contains host "://" = false ->
  exists r,
    normalizeHost host = (r, None) /\
    HasPrefix r host = true /\
    Contains r ":" = true /\
    normalizeHost r = (r, None).
Proof.
  intros Hs. destruct (Contains host ":") eqn:Hc.
  - exists host. split; [now apply normalizeHost_plain|].
    split.
    + apply HasPrefix_iff. exists "". clear. induction host; cbn; congruence.
    + split; [exact Hc | now apply normalizeHost_plain].
  - exists (host ++ ":"). split; [now apply normalizeHost_no_colon|].
    split; [apply HasPrefix_app|].
    split; [apply Contains_app_colon|].
    apply normalizeHost_plain;
      [apply Contains_app_colon | now apply no_colon_no_scheme_sep].
Qed.

(** *** Broadcaster and cluster selection *)

(** [PilosaBroadcaster] returns nil exactly for a variant name other than
    http, gossip and static; a broadcaster of the HTTP or gossip variant
    holds the server it was asked for. *)
Theorem PilosaBroadcaster_nil_iff (c : Config) (server : ptr) :
  (PilosaBroadcaster c server = None <->
     BroadcasterType c <> "http" /\ BroadcasterType c <> "gossip" /\
     BroadcasterType c <> "static") /\
  (forall b, PilosaBroadcaster c server = Some (BroadcasterHTTP b) ->
             hb_server b = server /\ BroadcasterType c = "http") /\
  (forall b, PilosaBroadcaster c server = Some (BroadcasterGossip b) ->
             gb_server b = server /\ BroadcasterType c = "gossip") /\
  (PilosaBroadcaster c server = Some NopBroadcaster ->
     BroadcasterType c = "static").
Proof.
  unfold PilosaBroadcaster.
  destruct (String.eqb_spec (BroadcasterType c) "http") as [E1|N1];
    [|destruct (String.eqb_spec (BroadcasterType c) "gossip") as [E2|N2];
      [|destruct (String.eqb_spec (BroadcasterType c) "static") as [E3|N3]]].
  all: split;
    [split; [intros H | intros (H1 & H2 & H3)]
    |split; [intros b H | split; [intros b H | intros H]]].
  all: try discriminate; try contradiction; try assumption.
  all: try (injection H as <-; now split).
  all: try (now repeat split).
Qed.

(** [PilosaCluster] panics exactly when the variant is gossip and the
    default gossip port is not a number, and then with the error of
    [strconv.Atoi]; in every other case it returns a cluster. *)
Theorem PilosaCluster_panic_iff (c : Config) :
  ((exists p, PilosaCluster c = Panic p) <->
     BroadcasterType c = "gossip" /\ Atoi DefaultGossipPort = None) /\
  (forall p, PilosaCluster c = Panic p -> p = PanicAtoi) /\
  (BroadcasterType c <> "gossip" \/ Atoi DefaultGossipPort <> None ->
     exists cl, PilosaCluster c = Ok cl).
Proof.
  destruct (String.eqb_spec (BroadcasterType c) "gossip") as [E|N].
  - destruct (Atoi DefaultGossipPort) as [gport|] eqn:Hport.
    + rewrite (PilosaCluster_gossip c gport E Hport).
      split; [|split].
      * split; [intros [p H]; discriminate | intros [_ H]; discriminate].
      * intros p H. discriminate.
      * intros _. eexists. reflexivity.
    + assert (Hp : PilosaCluster c = Panic PanicAtoi).
      { unfold PilosaCluster. rewrite PilosaCluster_prefix, E. cbn.
        now rewrite Hport. }
      rewrite Hp. split; [|split].
      * split; [now split | intros _; now exists PanicAtoi].
      * intros p H. now injection H as <-.
      * intros [H|H]; now contradiction H.
  - assert (Hok : exists ns,
               PilosaCluster c =
               Ok (Cluster_set_NodeSet (configuredCluster c) ns)).
    { destruct (String.eqb_spec (BroadcasterType c) "http") as [E1|N1].
      { eexists. now apply PilosaCluster_http. }
      destruct (String.eqb_spec (BroadcasterType c) "static") as [E3|N3].
      { eexists. now apply PilosaCluster_static. }
      eexists. now apply PilosaCluster_default. }
    destruct Hok as [ns Hok]. rewrite Hok. split; [|split].
    + split; [intros [p H]; discriminate | intros [H _]; now contradiction N].
    + intros p H. discriminate.
    + intros _. eexists. reflexivity.
Qed.

(** *** [AssociateBroadcaster] *)

(** [AssociateBroadcaster] returns exactly when the variant is not gossip
    or the server holds a cluster with a gossip node set and a gossip
    broadcaster; with gossip and no cluster it panics on the nil pointer,
    with another node set or broadcaster on the type assertion. *)
Theorem AssociateBroadcaster_returns_iff (s : Server) (c : Config) :
  ((exists s', AssociateBroadcaster s c = Ok s') <->
     BroadcasterType c <> "gossip" \/
     exists cl g b,
       Server_Cluster s = Some cl /\
       Cluster_NodeSet cl = Some (NodeSetGossip g) /\
       Server_Broadcaster s = Some (BroadcasterGossip b)) /\
  (BroadcasterType c = "gossip" -> Server_Cluster s = None ->
     AssociateBroadcaster s c = Panic PanicNilDereference) /\
  (forall p, AssociateBroadcaster s c = Panic p ->
     BroadcasterType c = "gossip" /\
     (p = PanicNilDereference \/ p = PanicTypeAssertion)).
Proof.
  destruct (String.eqb_spec (BroadcasterType c) "gossip") as [E|N].
  - assert (Hhttp : (BroadcasterType c =? "http") = false)
      by now rewrite E.
    unfold AssociateBroadcaster. rewrite Hhttp, E. cbn [String.eqb Ascii.eqb].
    change ("gossip" =? "gossip") with true. cbv iota.
    split; [|split].
    + split.
      * intros [s' H]. right.
        destruct (Server_Cluster s) as [cl|]; [|discriminate].
        destruct (Cluster_NodeSet cl) as [[ns|g|ns]|] eqn:Hns;
          try discriminate.
        destruct (Server_Broadcaster s) as [[b|b|]|]; try discriminate.
        exists cl, g, b. now repeat split.
      * intros [H | (cl & g & b & Hcl & Hns & Hb)]; [now contradiction H|].
        rewrite Hcl, Hns, Hb. eexists. reflexivity.
    + intros _ Hcl. now rewrite Hcl.
    + intros p H. split; [reflexivity|].
      destruct (Server_Cluster s) as [cl|];
        [|injection H as <-; now left].
      destruct (Cluster_NodeSet cl) as [[ns|g|ns]|];
        try (injection H as <-; now right).
      destruct (Server_Broadcaster s) as [[b|b|]|];
        try (injection H as <-; now right).
      discriminate.
  - rewrite (AssociateBroadcaster_not_gossip s c N). split; [|split].
    + split; [intros _; now left | intros _; now exists s].
    + intros E. now contradiction N.
    + intros p H. discriminate.
Qed.

Lemma AssociateBroadcaster_keeps (s s' : Server) (c : Config) :
  AssociateBroadcaster s c = Ok s' ->
  Server_LogOutput s' = Server_LogOutput s /\
  Server_Index s' = Server_Index s /\
  Server_Host s' = Server_Host s /\
  Server_Broadcaster s' = Server_Broadcaster s /\
  Server_AntiEntropyInterval s' = Server_AntiEntropyInterval s /\
  option_map Cluster_Nodes (Server_Cluster s')
    = option_map Cluster_Nodes (Server_Cluster s) /\
  option_map Cluster_ReplicaN (Server_Cluster s')
    = option_map Cluster_ReplicaN (Server_Cluster s).
Proof.
  destruct (String.eqb_spec (BroadcasterType c) "gossip") as [E|N].
  - unfold AssociateBroadcaster.
    assert (Hhttp : (BroadcasterType c =? "http") = false) by now rewrite E.
    rewrite Hhttp, E. change ("gossip" =? "gossip") with true. cbv iota.
    destruct (Server_Cluster s) as [cl|] eqn:Hcl; [|discriminate].
    destruct (Cluster_NodeSet cl) as [[ns|g|ns]|] eqn:Hns; try discriminate.
    destruct (Server_Broadcaster s) as [[b|b|]|] eqn:Hb; try discriminate.
    intros H. injection H as <-. cbn. rewrite Hb. now repeat split.
  - rewrite (AssociateBroadcaster_not_gossip s c N).
    intros H. injection H as <-. now repeat split.
Qed.

(** Whatever [AssociateBroadcaster] returns differs from the server it was
    given in the broadcaster field of the cluster's gossip node set at
    most: log output, index, host, broadcaster, interval, and the
    cluster's nodes and replica factor are as before. *)
Theorem AssociateBroadcaster_frame (s s' : Server) (c : Config) :
  AssociateBroadcaster s c = Ok s' ->
  Server_LogOutput s' = Server_LogOutput s /\
  Server_Index s' = Server_Index s /\
  Server_Host s' = Server_Host s /\
  Server_Broadcaster s' = Server_Broadcaster s /\
  Server_AntiEntropyInterval s' = Server_AntiEntropyInterval s /\
  option_map Cluster_Nodes (Server_Cluster s')
    = option_map Cluster_Nodes (Server_Cluster s) /\
  option_map Cluster_ReplicaN (Server_Cluster s')
    = option_map Cluster_ReplicaN (Server_Cluster s).
Proof. exact (AssociateBroadcaster_keeps s s' c). Qed.

Lemma wired_association (s : Server) (c : Config) (server : ptr)
    (cl : Cluster) :
  PilosaCluster c = Ok cl ->
  exists s',
    AssociateBroadcaster
      (Server_set_Cluster
         (Server_set_Broadcaster s (PilosaBroadcaster c server)) (Some cl))
      c = Ok s' /\
    (BroadcasterType c = "gossip" ->
       exists g,
         Server_Cluster s' = Some (Cluster_set_NodeSet cl (NodeSetGossip g)) /\
         gns_broadcaster g = Some (mkGossipBroadcaster server)) /\
    (BroadcasterType c <> "gossip" ->
       s' = Server_set_Cluster
              (Server_set_Broadcaster s (PilosaBroadcaster c server))
              (Some cl)).
Proof.
  intros Hcl.
  destruct (String.eqb_spec (BroadcasterType c) "gossip") as [E|N].
  - unfold PilosaCluster in Hcl. rewrite PilosaCluster_prefix, E in Hcl.
    cbn in Hcl. destruct (Atoi DefaultGossipPort); [|discriminate].
    injection Hcl as <-.
    unfold AssociateBroadcaster, PilosaBroadcaster. rewrite E. cbn.
    eexists. split; [reflexivity|]. split.
    + intros _. eexists. split; reflexivity.
    + intros H. now contradiction H.
  - eexists. split; [now apply AssociateBroadcaster_not_gossip|].
    split; [intros E; now contradiction N | reflexivity].
Qed.

(** The broadcaster and the cluster made from one configuration fit: the
    association on a server holding both never panics; for gossip the node
    set ends up with the gossip broadcaster of that server attached, for
    every other variant name the server is left as wired. *)
Theorem wiring_from_one_config_fits (s : Server) (c : Config) (server : ptr)
    (cl : Cluster) :
  PilosaCluster c = Ok cl ->
  exists s',
    AssociateBroadcaster
      (Server_set_Cluster
         (Server_set_Broadcaster s (PilosaBroadcaster c server)) (Some cl))
      c = Ok s' /\
    (BroadcasterType c = "gossip" ->
       exists g,
         Server_Cluster s' = Some (Cluster_set_NodeSet cl (NodeSetGossip g)) /\
         gns_broadcaster g = Some (mkGossipBroadcaster server)) /\
    (BroadcasterType c <> "gossip" ->
       s' = Server_set_Cluster
              (Server_set_Broadcaster s (PilosaBroadcaster c server))
              (Some cl)).
Proof. exact (wired_association s c server cl). Qed.


(** *** [Command.Run] on every path *)

Lemma PilosaCluster_cases (c : Config) :
  (BroadcasterType c = "gossip" /\ Atoi DefaultGossipPort = None /\
   PilosaCluster c = Panic PanicAtoi) \/
  (exists ns, PilosaCluster c = Ok (Cluster_set_NodeSet (configuredCluster c) ns)).
Proof.
  destruct (String.eqb_spec (BroadcasterType c) "gossip") as [E|N].
  - destruct (Atoi DefaultGossipPort) as [gport|] eqn:Hport.
    + right. eexists. exact (PilosaCluster_gossip c gport E Hport).
    + left. split; [exact E|]. split; [reflexivity|].
      unfold PilosaCluster. rewrite PilosaCluster_prefix, E. cbn.
      now rewrite Hport.
  - right.
    destruct (String.eqb_spec (BroadcasterType c) "http") as [E1|N1].
    { eexists. now apply PilosaCluster_http. }
    destruct (String.eqb_spec (BroadcasterType c) "static") as [E3|N3].
    { eexists. now apply PilosaCluster_static. }
    eexists. now apply PilosaCluster_default.
Qed.

Lemma sameShell_refl (m : Command) : sameShell m m.
Proof. now repeat split. Qed.

Lemma sameShell_trans (m1 m2 m3 : Command) :
  sameShell m1 m2 -> sameShell m2 m3 -> sameShell m1 m3.
Proof.
  unfold sameShell. intros (A1 & A2 & A3 & A4 & A5 & A6)
                           (B1 & B2 & B3 & B4 & B5 & B6).
  repeat split; congruence.
Qed.

Lemma sameShell_set_Server (m : Command) (s : Server) :
  sameShell (Command_set_Server m s) m.
Proof. now repeat split. Qed.

Lemma sameShell_afterDataDir (w : World) (m : Command) :
  sameShell (afterDataDir w m) m.
Proof.
  unfold afterDataDir. destruct (HasPrefix _ _); now repeat split.
Qed.

Lemma sameButDataDir_afterDataDir (w : World) (m : Command) :
  sameButDataDir (Command_Config (afterDataDir w m)) (Command_Config m).
Proof.
  unfold afterDataDir. destruct (HasPrefix _ _); now repeat split.
Qed.

Lemma afterDataDir_output (w : World) (m : Command) :
  Command_StderrOut (afterDataDir w m) = Command_StderrOut m.
Proof.
  unfold afterDataDir. now destruct (HasPrefix _ _).
Qed.

Lemma afterLogging_shell (w : World) (m : Command) :
  sameShell (afterLogging w m) m /\
  Command_StderrOut (afterLogging w m) = Command_StderrOut m /\
  Server_Index (Command_Server (afterLogging w m))
    = Server_Index (Command_Server m) /\
  Server_Host (Command_Server (afterLogging w m))
    = Server_Host (Command_Server m) /\
  Server_AntiEntropyInterval (Command_Server (afterLogging w m))
    = Server_AntiEntropyInterval (Command_Server m).
Proof.
  unfold afterLogging. destruct (_ =? ""); [now repeat split|].
  destruct (OpenFile w _); now repeat split.
Qed.

(** What the steps before the wiring have done to the command. *)
Lemma beforeWiring_state (w : World) (m : Command) :
  sameShell (beforeWiring w m) m /\
  Command_Config (beforeWiring w m) = Command_Config (afterDataDir w m) /\
  Command_StderrOut (beforeWiring w m) =
    List.app (Command_StderrOut m)
             ["Using data from: " ++ resolvedDataDir w m ++ "
"] /\
  Server_LogOutput (Command_Server (beforeWiring w m))
    = chosenLogOutput w (afterDataDir w m) /\
  Server_Index (Command_Server (beforeWiring w m))
    = mkIndex (resolvedDataDir w m) NewExpvarStatsClient /\
  Server_Host (Command_Server (beforeWiring w m))
    = Server_Host (Command_Server m) /\
  Server_AntiEntropyInterval (Command_Server (beforeWiring w m))
    = Server_AntiEntropyInterval (Command_Server m).
Proof.
  destruct (afterLogging_shell w (afterDataDir w m))
    as (Hsh & Hout & Hix & Hh & Hae).
  destruct (afterLogging_frame w (afterDataDir w m)) as (Hc & _).
  destruct (afterDataDir_frame w m) as (Hsv & _).
  unfold beforeWiring, afterIndex, resolvedDataDir, chosenLogOutput.
  cbn [Command_Config Command_StderrOut Command_Server Fprintf_Stderr
       Command_set_Server Server_set_Index Server_LogOutput Server_Index
       Server_Host Server_AntiEntropyInterval].
  rewrite Hc, Hout, Hh, Hae, Hsv, afterDataDir_output.
  split; [|now repeat split].
  apply sameShell_trans with (afterLogging w (afterDataDir w m));
    [now repeat split|].
  apply sameShell_trans with (afterDataDir w m);
    [exact Hsh | apply sameShell_afterDataDir].
Qed.

Lemma Run_initialize_frame (w : World) (m : Command) :
  sameShell (fst (Run_initialize w m)) m /\
  Command_Config (fst (Run_initialize w m)) = Command_Config m /\
  Command_Server (fst (Run_initialize w m))
    = fst (Server_Open w (Command_Server m)) /\
  Command_StderrOut (fst (Run_initialize w m)) =
    List.app (Command_StderrOut m)
      match snd (Server_Open w (Command_Server m)) with
      | Some _ => []
      | None => ["Listening as http://"
                 ++ Server_Host (fst (Server_Open w (Command_Server m))) ++ "
"]
      end.
Proof.
  unfold Run_initialize.
  destruct (Server_Open w (Command_Server m)) as [s' [e|]]; cbn [fst snd].
  - split; [now repeat split|]. split; [reflexivity|].
    split; [reflexivity|]. cbn. now rewrite app_nil_r.
  - split; [now repeat split|]. now repeat split.
Qed.

(** The five ways through the body of [Run]. *)
Lemma Run_body_cases (w : World) (m : Command) :
  (dataDirOK w m = false /\ Run_body w m = (m, Ok (Some noHomeError))) \/
  (dataDirOK w m = true /\ logOK w m = false /\
   exists e,
     Config_LogPath (Command_Config m) <> "" /\
     OpenFile w (Config_LogPath (Command_Config m)) = inr e /\
     Run_body w m = (afterDataDir w m, Ok (Some e))) \/
  (dataDirOK w m = true /\ logOK w m = true /\
   exists h e,
     normalizeHost (Config_Host (Command_Config m)) = (h, Some e) /\
     Run_body w m = (hostSet w m h, Ok (Some e))) \/
  (dataDirOK w m = true /\ logOK w m = true /\
   exists h,
     normalizeHost (Config_Host (Command_Config m)) = (h, None) /\
     BroadcasterType (Command_Config m) = "gossip" /\
     Atoi DefaultGossipPort = None /\
     Run_body w m = (broadcasterSet w m h, Panic PanicAtoi)) \/
  (dataDirOK w m = true /\ logOK w m = true /\
   exists h cl s',
     normalizeHost (Config_Host (Command_Config m)) = (h, None) /\
     PilosaCluster (Command_Config (beforeWiring w m)) = Ok cl /\
     AssociateBroadcaster (Command_Server (clusterSet w m h cl))
       (Command_Config (beforeWiring w m)) = Ok s' /\
     Run_body w m = Run_initialize w (beforeOpen w m s')).
Proof.
  destruct (dataDirOK w m) eqn:Hd.
  2:{ left. split; [reflexivity|].
      destruct (dataDirOK_false w m Hd) as [Hp Hh].
      now apply Run_body_no_home. }
  right. destruct (logOK w m) eqn:Hl.
  2:{ left. split; [reflexivity|]. split; [reflexivity|].
      pose proof Hl as Hl'. rewrite <- logOK_afterDataDir in Hl'.
      destruct (logOK_false _ _ Hl') as (e & Hp & Ho).
      destruct (afterDataDir_frame w m) as (_ & _ & _ & El & _).
      exists e. rewrite <- El.
      split; [exact Hp|]. split; [exact Ho|].
      rewrite (Run_body_dataDirOK w m Hd).
      now apply Run_setup_logging_fails. }
  right. rewrite (Run_body_passes w m Hd Hl).
  destruct (beforeWiring_frame w m) as (_ & _ & Eh & _).
  destruct (beforeWiring_cluster_config w m) as [Ebt _].
  destruct (normalizeHost (Config_Host (Command_Config m))) as [h [e|]] eqn:Hn.
  { left. split; [reflexivity|]. split; [reflexivity|]. exists h, e.
    split; [reflexivity|].
    apply Run_build_cluster_host_error. now rewrite Eh. }
  right.
  destruct (PilosaCluster_cases (Command_Config (beforeWiring w m)))
    as [(Eg & Hport & Hp) | [ns Hcl]].
  - left. split; [reflexivity|]. split; [reflexivity|]. exists h.
    split; [reflexivity|]. rewrite <- Ebt. split; [exact Eg|].
    split; [exact Hport|].
    unfold Run_build_cluster. rewrite Eh, Hn. cbn zeta.
    cbn [Command_Config Command_set_Server Command_Server Command_ServerRef].
    now rewrite Hp.
  - right. split; [reflexivity|]. split; [reflexivity|].
    rewrite <- Eh in Hn.
    destruct (Run_build_cluster_wires w (beforeWiring w m) h _ Hn Hcl)
      as (s' & Ha & Hrun).
    exists h, (Cluster_set_NodeSet
                 (configuredCluster (Command_Config (beforeWiring w m))) ns), s'.
    split; [reflexivity|]. split; [exact Hcl|].
    split; [exact Ha | exact Hrun].
Qed.

(** The body of [Run] leaves everything but the server, the configuration
    and the output as it was, on every path. *)
Lemma Run_body_shell (w : World) (m : Command) :
  sameShell (fst (Run_body w m)) m.
Proof.
  pose proof (beforeWiring_state w m) as (Hsh & _).
  destruct (Run_body_cases w m)
    as [(_ & ->) | [(_ & _ & e & _ & _ & ->) | [(_ & _ & h & e & _ & ->)
       | [(_ & _ & h & _ & _ & _ & ->)
         | (_ & _ & h & cl & s' & _ & _ & _ & ->)]]]].
  - apply sameShell_refl.
  - apply sameShell_afterDataDir.
  - apply sameShell_trans with (beforeWiring w m); [now repeat split | exact Hsh].
  - apply sameShell_trans with (beforeWiring w m); [now repeat split | exact Hsh].
  - destruct (Run_initialize_frame w (beforeOpen w m s')) as (H & _).
    apply sameShell_trans with (beforeOpen w m s'); [exact H|].
    apply sameShell_trans with (beforeWiring w m); [now repeat split | exact Hsh].
Qed.

(** [Run] in terms of its body. *)
Lemma Run_by_body (w : World) (m : Command) :
  Command_Started (fst (Run w m)) = ChanClosed /\
  Command_Server (fst (Run w m)) = Command_Server (fst (Run_body w m)) /\
  Command_Config (fst (Run w m)) = Command_Config (fst (Run_body w m)) /\
  Command_StderrOut (fst (Run w m)) = Command_StderrOut (fst (Run_body w m)) /\
  Command_ServerRef (fst (Run w m)) = Command_ServerRef m /\
  Command_CPUProfile (fst (Run w m)) = Command_CPUProfile m /\
  Command_CPUTime (fst (Run w m)) = Command_CPUTime m /\
  Command_Stderr (fst (Run w m)) = Command_Stderr m /\
  Command_Done (fst (Run w m)) = Command_Done m /\
  snd (Run w m) =
    match Command_Started m with
    | ChanOpen => snd (Run_body w m)
    | ChanClosed => Panic PanicCloseOfClosedChannel
    end.
Proof.
  pose proof (Run_body_shell w m) as (H1 & H2 & H3 & H4 & H5 & H6).
  unfold Run. destruct (Run_body w m) as [m' r]. cbn [fst snd] in *.
  unfold deferred_close_Started. rewrite <- H5.
  destruct (Command_Started m') eqn:Hs; cbn [fst snd]; now repeat split.
Qed.


Lemma normalizeHost_error_shape (host h : string) (e : error) :
  normalizeHost host = (h, Some e) ->
  h = "" /\ e = invalidSchemeError host /\
  Contains host "://" = true /\ HasPrefix host "http://" = false.
Proof.
  unfold normalizeHost.
  destruct (Contains host ":"); cbn [negb]; [|discriminate].
  destruct (Contains host "://"); [|discriminate].
  destruct (HasPrefix host "http://"); [discriminate|].
  intros H. injection H as <- <-. now repeat split.
Qed.

Lemma PilosaBroadcaster_by_type (c1 c2 : Config) (server : ptr) :
  BroadcasterType c1 = BroadcasterType c2 ->
  PilosaBroadcaster c1 server = PilosaBroadcaster c2 server.
Proof.
  intros H. unfold PilosaBroadcaster. now rewrite H.
Qed.

Lemma chosenLogOutput_spec (w : World) (m : Command) :
  (Config_LogPath (Command_Config m) = "" ->
     chosenLogOutput w m = Command_Stderr m) /\
  (forall f, Config_LogPath (Command_Config m) <> "" ->
     OpenFile w (Config_LogPath (Command_Config m)) = inl f ->
     chosenLogOutput w m = FileWriter f).
Proof.
  unfold chosenLogOutput, afterLogging. split.
  - intros H. now rewrite H.
  - intros f Hp Ho. apply String.eqb_neq in Hp. now rewrite Hp, Ho.
Qed.

Lemma resolvedDataDir_spec (w : World) (m : Command) :
  resolvedDataDir w m =
  if HasPrefix (Config_DataDir (Command_Config m)) ("~" ++ String Separator "")
  then filepath_Join (Getenv w "HOME")
         (TrimPrefix (Config_DataDir (Command_Config m))
                     ("~" ++ String Separator ""))
  else Config_DataDir (Command_Config m).
Proof.
  unfold resolvedDataDir, afterDataDir.
  now destruct (HasPrefix _ _).
Qed.

(** The command handed to [Server.Open]. *)
Lemma beforeOpen_state (w : World) (m : Command) (h : string) (cl : Cluster)
    (s' : Server) :
  AssociateBroadcaster (Command_Server (clusterSet w m h cl))
    (Command_Config (beforeWiring w m)) = Ok s' ->
  Server_Host (Command_Server (beforeOpen w m s')) = h /\
  Server_Index (Command_Server (beforeOpen w m s'))
    = mkIndex (resolvedDataDir w m) NewExpvarStatsClient /\
  Server_LogOutput (Command_Server (beforeOpen w m s'))
    = chosenLogOutput w (afterDataDir w m) /\
  Server_AntiEntropyInterval (Command_Server (beforeOpen w m s'))
    = Config_AntiEntropy_Interval (Command_Config m) /\
  Server_Broadcaster (Command_Server (beforeOpen w m s'))
    = PilosaBroadcaster (Command_Config m) (Command_ServerRef m) /\
  option_map Cluster_Nodes (Server_Cluster (Command_Server (beforeOpen w m s')))
    = Some (Cluster_Nodes cl) /\
  option_map Cluster_ReplicaN
      (Server_Cluster (Command_Server (beforeOpen w m s')))
    = Some (Cluster_ReplicaN cl) /\
  Command_Config (beforeOpen w m s') = Command_Config (afterDataDir w m) /\
  Command_StderrOut (beforeOpen w m s') =
    List.app (Command_StderrOut m)
             ["Using data from: " ++ resolvedDataDir w m ++ "
"].
Proof.
  intros Ha.
  destruct (AssociateBroadcaster_keeps _ _ _ Ha)
    as (Hlo & Hix & Hh & Hb & _ & Hn & Hr).
  destruct (beforeWiring_state w m) as (Hsh & Hc & Hout & Blo & Bix & _ & _).
  destruct (beforeWiring_cluster_config w m) as [Ebt _].
  destruct (sameButDataDir_afterDataDir w m) as (_ & _ & _ & Hint).
  destruct Hsh as (Href & _).
  unfold beforeOpen.
  cbn [Command_Server Command_set_Server Server_set_AntiEntropyInterval
       Server_Host Server_Index Server_LogOutput Server_AntiEntropyInterval
       Server_Broadcaster Server_Cluster Command_Config Command_StderrOut].
  rewrite Hlo, Hix, Hh, Hb, Hn, Hr, Hc, Hint, Hout.
  unfold clusterSet, broadcasterSet, hostSet.
  cbn [Command_Server Command_set_Server Server_set_Cluster
       Server_set_Broadcaster Server_set_Host Server_Host Server_Index
       Server_LogOutput Server_Broadcaster Server_Cluster Command_Config
       Command_ServerRef option_map].
  rewrite Blo, Bix, Href, Hc.
  repeat split.
  apply PilosaBroadcaster_by_type. rewrite <- Hc. exact Ebt.
Qed.

Lemma Run_body_config (w : World) (m : Command) :
  Command_Config (fst (Run_body w m)) =
  if dataDirOK w m then Command_Config (afterDataDir w m)
  else Command_Config m.
Proof.
  destruct (beforeWiring_state w m) as (_ & Hc & _).
  destruct (Run_body_cases w m)
    as [(Hd & ->) | [(Hd & _ & e & _ & _ & ->) | [(Hd & _ & h & e & _ & ->)
       | [(Hd & _ & h & _ & _ & _ & ->)
         | (Hd & _ & h & cl & s' & _ & _ & _ & ->)]]]];
    rewrite Hd; try reflexivity; try exact Hc.
  destruct (Run_initialize_frame w (beforeOpen w m s')) as (_ & -> & _).
  exact Hc.
Qed.

Lemma Run_panic_cases (w : World) (m : Command) :
  Command_Started m = ChanOpen ->
  (BroadcasterType (Command_Config m) <> "gossip" \/
   Atoi DefaultGossipPort <> None ->
     exists r, snd (Run w m) = Ok r) /\
  (forall p, snd (Run w m) = Panic p ->
     p = PanicAtoi /\
     BroadcasterType (Command_Config m) = "gossip" /\
     Atoi DefaultGossipPort = None /\
     dataDirOK w m = true /\ logOK w m = true /\
     snd (normalizeHost (Config_Host (Command_Config m))) = None).
Proof.
  intros Hst.
  destruct (Run_by_body w m) as (_ & _ & _ & _ & _ & _ & _ & _ & _ & Hsnd).
  rewrite Hst in Hsnd. rewrite Hsnd.
  destruct (Run_body_cases w m)
    as [(Hd & ->) | [(Hd & _ & e & _ & _ & ->) | [(Hd & Hl & h & e & _ & ->)
       | [(Hd & Hl & h & Hn & Eg & Hport & ->)
         | (Hd & Hl & h & cl & s' & _ & _ & _ & ->)]]]]; cbn [snd].
  - split; [intros _; now eexists | discriminate].
  - split; [intros _; now eexists | discriminate].
  - split; [intros _; now eexists | discriminate].
  - split.
    + intros [H|H]; now contradiction H.
    + intros p H. injection H as <-. rewrite Hn. now repeat split.
  - destruct (Run_initialize_outcome w (beforeOpen w m s')) as [_ ->].
    split; [intros _; now eexists | discriminate].
Qed.

(** On a command whose [Started] channel is open, [Run] panics in one
    case only: the variant is gossip, the default gossip port is not a
    number, and every step before the cluster is built has passed.  With
    another variant, or a numeric default port, it returns. *)
Theorem Run_panics_only_on_bad_gossip_port (w : World) (m : Command) :
  Command_Started m = ChanOpen ->
  (BroadcasterType (Command_Config m) <> "gossip" \/
   Atoi DefaultGossipPort <> None ->
     exists r, snd (Run w m) = Ok r) /\
  (forall p, snd (Run w m) = Panic p ->
     p = PanicAtoi /\
     BroadcasterType (Command_Config m) = "gossip" /\
     Atoi DefaultGossipPort = None /\
     dataDirOK w m = true /\ logOK w m = true /\
     snd (normalizeHost (Config_Host (Command_Config m))) = None).
Proof. exact (Run_panic_cases w m). Qed.


(** [Run] leaves [Started] closed on every path, so a command runs once:
    a run on a command whose [Started] is closed panics on the deferred
    close, and so does every second run. *)
Theorem Run_once_only (w w' : World) (m : Command) :
  Command_Started (fst (Run w m)) = ChanClosed /\
  (Command_Started m = ChanClosed ->
     snd (Run w m) = Panic PanicCloseOfClosedChannel) /\
  snd (Run w' (fst (Run w m))) = Panic PanicCloseOfClosedChannel.
Proof.
  destruct (Run_by_body w m) as (Hst & _ & _ & _ & _ & _ & _ & _ & _ & Hsnd).
  split; [exact Hst|]. split.
  - intros H. now rewrite Hsnd, H.
  - destruct (Run_by_body w' (fst (Run w m)))
      as (_ & _ & _ & _ & _ & _ & _ & _ & _ & Hsnd').
    now rewrite Hsnd', Hst.
Qed.

(** Of the configuration [Run] changes the data directory at most, and that
    only by the home expansion: a directory without the home prefix stays,
    one with it becomes the join of HOME and the rest when HOME is set.
    The server address, the profiling options, [Stderr] and [Done] are
    never touched. *)
Theorem Run_touches_only_DataDir (w : World) (m : Command) :
  Config_LogPath (Command_Config (fst (Run w m)))
    = Config_LogPath (Command_Config m) /\
  Config_Host (Command_Config (fst (Run w m)))
    = Config_Host (Command_Config m) /\
  Config_Cluster (Command_Config (fst (Run w m)))
    = Config_Cluster (Command_Config m) /\
  Config_AntiEntropy_Interval (Command_Config (fst (Run w m)))
    = Config_AntiEntropy_Interval (Command_Config m) /\
  (HasPrefix (Config_DataDir (Command_Config m))
             ("~" ++ String Separator "") = false ->
     Config_DataDir (Command_Config (fst (Run w m)))
       = Config_DataDir (Command_Config m)) /\
  (HasPrefix (Config_DataDir (Command_Config m))
             ("~" ++ String Separator "") = true ->
   Getenv w "HOME" <> "" ->
     Config_DataDir (Command_Config (fst (Run w m)))
       = filepath_Join (Getenv w "HOME")
           (TrimPrefix (Config_DataDir (Command_Config m))
                       ("~" ++ String Separator ""))) /\
  (HasPrefix (Config_DataDir (Command_Config m))
             ("~" ++ String Separator "") = true ->
   Getenv w "HOME" = "" ->
     Command_Config (fst (Run w m)) = Command_Config m) /\
  Command_ServerRef (fst (Run w m)) = Command_ServerRef m /\
  Command_CPUProfile (fst (Run w m)) = Command_CPUProfile m /\
  Command_CPUTime (fst (Run w m)) = Command_CPUTime m /\
  Command_Stderr (fst (Run w m)) = Command_Stderr m /\
  Command_Done (fst (Run w m)) = Command_Done m.
Proof.
  destruct (Run_by_body w m)
    as (_ & _ & Hc & _ & Hr & Hp & Ht & He & Hd & _).
  rewrite Hc, (Run_body_config w m).
  destruct (sameButDataDir_afterDataDir w m) as (A1 & A2 & A3 & A4).
  pose proof (resolvedDataDir_spec w m) as Hres. unfold resolvedDataDir in Hres.
  unfold dataDirOK.
  destruct (HasPrefix (Config_DataDir (Command_Config m))
                      ("~" ++ String Separator "")) eqn:Hpre;
    cbn [negb orb].
  - destruct (String.eqb_spec (Getenv w "HOME") "") as [Eh|Nh]; cbn [negb];
      repeat split; intros; try assumption; try congruence.
  - repeat split; intros; try assumption; try congruence.
Qed.

(** Every error [Run] returns is one of four: the missing home directory,
    the error of opening the log file, the invalid scheme of the host, or
    an error of [Server.Open] behind the text server.Open. *)
Theorem Run_error_taxonomy (w : World) (m : Command) (e : error) :
  snd (Run w m) = Ok (Some e) ->
  (e = noHomeError /\ dataDirOK w m = false) \/
  (Config_LogPath (Command_Config m) <> "" /\
   OpenFile w (Config_LogPath (Command_Config m)) = inr e) \/
  (e = invalidSchemeError (Config_Host (Command_Config m)) /\
   Contains (Config_Host (Command_Config m)) "://" = true /\
   HasPrefix (Config_Host (Command_Config m)) "http://" = false) \/
  (exists s e0,
     snd (Server_Open w s) = Some e0 /\
     e = errorString ("server.Open: " ++ Error e0)).
Proof.
  destruct (Run_by_body w m) as (_ & _ & _ & _ & _ & _ & _ & _ & _ & Hsnd).
  rewrite Hsnd. destruct (Command_Started m); [|discriminate].
  destruct (Run_body_cases w m)
    as [(Hd & ->) | [(Hd & _ & e' & Hp & Ho & ->)
       | [(Hd & Hl & h & e' & Hn & ->)
       | [(Hd & Hl & h & Hn & Eg & Hport & ->)
         | (Hd & Hl & h & cl & s' & _ & _ & _ & ->)]]]]; cbn [snd].
  - intros H. injection H as <-. now left.
  - intros H. injection H as <-. right. left. now split.
  - intros H. injection H as <-. right. right. left.
    destruct (normalizeHost_error_shape _ _ _ Hn) as (_ & He & Hc & Hp).
    now repeat split.
  - discriminate.
  - destruct (Run_initialize_outcome w (beforeOpen w m s')) as [_ ->].
    destruct (snd (Server_Open w (Command_Server (beforeOpen w m s'))))
      as [e0|] eqn:Hopen; [|discriminate].
    intros H. injection H as <-. right. right. right.
    exists (Command_Server (beforeOpen w m s')), e0. now split.
Qed.

(** When the log file does not open, [Run] returns that error with the
    server untouched and nothing written, although the data directory in
    the configuration is already the expanded one. *)
Theorem Run_log_failure_leaves_server (w : World) (m : Command) (e : error) :
  Command_Started m = ChanOpen ->
  dataDirOK w m = true ->
  Config_LogPath (Command_Config m) <> "" ->
  OpenFile w (Config_LogPath (Command_Config m)) = inr e ->
  snd (Run w m) = Ok (Some e) /\
  Command_Server (fst (Run w m)) = Command_Server m /\
  Command_StderrOut (fst (Run w m)) = Command_StderrOut m /\
  Config_DataDir (Command_Config (fst (Run w m))) = resolvedDataDir w m.
Proof.
  intros Hst Hd Hp Ho.
  destruct (Run_by_body w m)
    as (_ & Hsv & Hc & Hout & _ & _ & _ & _ & _ & Hsnd).
  rewrite Hst in Hsnd. rewrite Hsnd, Hsv, Hc, Hout.
  destruct (afterDataDir_frame w m) as (Esv & _ & _ & El & _).
  assert (Hbody : Run_body w m = (afterDataDir w m, Ok (Some e))).
  { rewrite (Run_body_dataDirOK w m Hd).
    apply Run_setup_logging_fails; now rewrite El. }
  rewrite Hbody. cbn [fst snd].
  split; [reflexivity|]. split; [exact Esv|].
  split; [apply afterDataDir_output | reflexivity].
Qed.

(** When the host does not normalize, [Run] returns with the server half
    set up: the host is overwritten by the empty string, the log output and
    the index are already configured and the data directory line is
    written, while the interval is still the old one. *)
Theorem Run_host_failure_state (w : World) (m : Command) (h : string)
    (e : error) :
  Command_Started m = ChanOpen ->
  dataDirOK w m = true -> logOK w m = true ->
  normalizeHost (Config_Host (Command_Config m)) = (h, Some e) ->
  Server_Host (Command_Server (fst (Run w m))) = "" /\
  Server_Index (Command_Server (fst (Run w m)))
    = mkIndex (resolvedDataDir w m) NewExpvarStatsClient /\
  Server_LogOutput (Command_Server (fst (Run w m)))
    = chosenLogOutput w (afterDataDir w m) /\
  Server_AntiEntropyInterval (Command_Server (fst (Run w m)))
    = Server_AntiEntropyInterval (Command_Server m) /\
  Command_StderrOut (fst (Run w m)) =
    List.app (Command_StderrOut m)
             ["Using data from: " ++ resolvedDataDir w m ++ "
"].
Proof.
  intros Hst Hd Hl Hn.
  destruct (Run_by_body w m) as (_ & Hsv & _ & Hout & _).
  rewrite Hsv, Hout.
  destruct (normalizeHost_error_shape _ _ _ Hn) as (-> & _).
  destruct (beforeWiring_frame w m) as (_ & _ & Eh & _).
  rewrite (Run_body_passes w m Hd Hl).
  rewrite (Run_build_cluster_host_error w (beforeWiring w m) "" e)
    by now rewrite Eh.
  destruct (beforeWiring_state w m) as (_ & _ & Bout & Blo & Bix & _ & Bae).
  cbn [fst Command_Server Command_set_Server Server_set_Host Server_Host
       Server_Index Server_LogOutput Server_AntiEntropyInterval
       Command_StderrOut].
  now repeat split.
Qed.

(** When every step before it passes, [Server.Open] is called on a server
    that carries the whole configuration: the normalized host, the index on
    the resolved data directory with the expvar stats client, the chosen
    log output, the configured interval, the broadcaster of the configured
    variant, and a cluster with the configured nodes and replica factor. *)
Theorem Run_opens_wired_server (w : World) (m : Command) (h : string) :
  Command_Started m = ChanOpen ->
  dataDirOK w m = true -> logOK w m = true ->
  normalizeHost (Config_Host (Command_Config m)) = (h, None) ->
  (BroadcasterType (Command_Config m) <> "gossip" \/
   Atoi DefaultGossipPort <> None) ->
  exists mo,
    Run w m = deferred_close_Started (Run_initialize w mo) /\
    Server_Host (Command_Server mo) = h /\
    Server_Index (Command_Server mo)
      = mkIndex (resolvedDataDir w m) NewExpvarStatsClient /\
    Server_LogOutput (Command_Server mo)
      = chosenLogOutput w (afterDataDir w m) /\
    Server_AntiEntropyInterval (Command_Server mo)
      = Config_AntiEntropy_Interval (Command_Config m) /\
    Server_Broadcaster (Command_Server mo)
      = PilosaBroadcaster (Command_Config m) (Command_ServerRef m) /\
    option_map Cluster_Nodes (Server_Cluster (Command_Server mo))
      = Some (map mkNode
                (ClusterConfig_Nodes (Config_Cluster (Command_Config m)))) /\
    option_map Cluster_ReplicaN (Server_Cluster (Command_Server mo))
      = Some (ClusterConfig_ReplicaN (Config_Cluster (Command_Config m))).
Proof.
  intros Hst Hd Hl Hn Hok.
  destruct (beforeWiring_cluster_config w m) as [Ebt Ecc].
  destruct (Run_body_cases w m)
    as [(Hd' & _) | [(_ & Hl' & _) | [(_ & _ & h' & e & Hn' & _)
       | [(_ & _ & h' & _ & Eg & Hport & _)
         | (_ & _ & h' & cl & s' & Hn' & Hcl & Ha & Hbody)]]]];
    try congruence.
  - destruct Hok as [H|H]; now contradiction H.
  - assert (h' = h) by congruence. subst h'.
    exists (beforeOpen w m s').
    split; [unfold Run; now rewrite Hbody|].
    destruct (beforeOpen_state w m h cl s' Ha)
      as (B1 & B2 & B3 & B4 & B5 & B6 & B7 & _).
    rewrite B1, B2, B3, B4, B5, B6, B7.
    destruct (PilosaCluster_cases (Command_Config (beforeWiring w m)))
      as [(_ & _ & Hp) | [ns Hns]]; [congruence|].
    rewrite Ecc in Hns. rewrite Hns in Hcl. injection Hcl as <-.
    now repeat split.
Qed.

(** What [Run] writes to [Stderr]: on success the data directory line and
    then the listening line with the host the opened server reports; on an
    error at most the data directory line, never the listening line. *)
Theorem Run_output (w : World) (m : Command) :
  Command_Started m = ChanOpen ->
  (snd (Run w m) = Ok None ->
     Command_StderrOut (fst (Run w m)) =
       List.app (Command_StderrOut m)
         ["Using data from: " ++ resolvedDataDir w m ++ "
";
          "Listening as http://"
            ++ Server_Host (Command_Server (fst (Run w m))) ++ "
"]) /\
  (forall e, snd (Run w m) = Ok (Some e) ->
     Command_StderrOut (fst (Run w m)) = Command_StderrOut m \/
     Command_StderrOut (fst (Run w m)) =
       List.app (Command_StderrOut m)
         ["Using data from: " ++ resolvedDataDir w m ++ "
"]).
Proof.
  intros Hst.
  destruct (Run_by_body w m)
    as (_ & Hsv & _ & Hout & _ & _ & _ & _ & _ & Hsnd).
  rewrite Hst in Hsnd. rewrite Hsnd, Hsv, Hout.
  destruct (beforeWiring_state w m) as (_ & _ & Bout & _).
  destruct (Run_body_cases w m)
    as [(Hd & ->) | [(Hd & _ & e' & Hp & Ho & ->)
       | [(Hd & Hl & h & e' & Hn & ->)
       | [(Hd & Hl & h & Hn & Eg & Hport & ->)
         | (Hd & Hl & h & cl & s' & _ & _ & Ha & ->)]]]]; cbn [fst snd].
  - split; [discriminate | intros e _; now left].
  - split; [discriminate|]. intros e _. left. apply afterDataDir_output.
  - split; [discriminate|]. intros e _. right. exact Bout.
  - split; discriminate.
  - destruct (Run_initialize_outcome w (beforeOpen w m s')) as [_ Hr].
    destruct (Run_initialize_frame w (beforeOpen w m s'))
      as (_ & _ & Hs' & Ho').
    destruct (beforeOpen_state w m h cl s' Ha)
      as (_ & _ & _ & _ & _ & _ & _ & _ & Bo).
    rewrite Hr, Ho', Hs', Bo.
    destruct (snd (Server_Open w (Command_Server (beforeOpen w m s'))))
      as [e0|].
    + split; [discriminate|]. intros e _. right. now rewrite app_nil_r.
    + split; [|discriminate]. intros _. now rewrite <- app_assoc.
Qed.

(** The gossip wiring inside [Run]: [Server.Open] is called on a server
    whose broadcaster is the gossip broadcaster of that server and whose
    cluster holds a gossip node set with that broadcaster attached, named by
    the host as configured (not as normalized), with the chosen port and
    seed. *)
Theorem Run_gossip_wiring (w : World) (m : Command) (h : string) (gport : Z) :
  Command_Started m = ChanOpen ->
  dataDirOK w m = true -> logOK w m = true ->
  normalizeHost (Config_Host (Command_Config m)) = (h, None) ->
  BroadcasterType (Command_Config m) = "gossip" ->
  Atoi DefaultGossipPort = Some gport ->
  exists mo cl g,
    Run w m = deferred_close_Started (Run_initialize w mo) /\
    Server_Host (Command_Server mo) = h /\
    Server_Broadcaster (Command_Server mo)
      = Some (NewGossipBroadcaster (Command_ServerRef m)) /\
    Server_Cluster (Command_Server mo) = Some cl /\
    Cluster_NodeSet cl = Some (NodeSetGossip g) /\
    gns_broadcaster g = Some (mkGossipBroadcaster (Command_ServerRef m)) /\
    gns_name g = Config_Host (Command_Config m) /\
    gns_gossipPort g = chosenGossipPort (Command_Config m) gport /\
    gns_gossipSeed g = chosenGossipSeed (Command_Config m).
Proof.
  intros Hst Hd Hl Hn Eg Hport.
  destruct (beforeWiring_cluster_config w m) as [Ebt Ecc].
  destruct (beforeWiring_frame w m) as (_ & Er & Eh & Ecl & _).
  destruct (Run_body_cases w m)
    as [(Hd' & _) | [(_ & Hl' & _) | [(_ & _ & h' & e & Hn' & _)
       | [(_ & _ & h' & _ & _ & Hport' & _)
         | (_ & _ & h' & cl & s' & Hn' & Hcl & Ha & Hbody)]]]];
    try congruence.
  assert (h' = h) by congruence. subst h'.
  unfold clusterSet, broadcasterSet, hostSet in Ha. unfold beforeOpen in Hbody.
  set (mb := beforeWiring w m) in *. clearbody mb.
  assert (Eg' : BroadcasterType (Command_Config mb) = "gossip")
    by now rewrite Ebt.
  rewrite (PilosaCluster_gossip _ gport Eg' Hport) in Hcl.
  injection Hcl as <-.
  cbn [Command_Server Command_set_Server Command_Config Command_ServerRef]
    in Ha.
  unfold AssociateBroadcaster, PilosaBroadcaster in Ha.
  rewrite Eg' in Ha. cbn in Ha. injection Ha as <-.
  do 3 eexists.
  split; [unfold Run; rewrite Hbody; reflexivity|].
  cbn. rewrite Er.
  split; [reflexivity|]. split; [reflexivity|]. split; [reflexivity|].
  split; [reflexivity|]. split; [reflexivity|].
  split; [exact Eh|].
  unfold chosenGossipPort, chosenGossipSeed. now rewrite Ecl.
Qed.


(** *** [Command.Close] and the life of a command *)

Lemma string_app_assoc (a b c : string) : (a ++ b) ++ c = a ++ (b ++ c).
Proof.
  induction a as [|x a IH]; cbn; [reflexivity | now rewrite IH].
Qed.

Lemma closingError_mentions (se le : error) :
  Contains (Error (closingError se le)) (Error se) = true /\
  Contains (Error (closingError se le)) (Error le) = true.
Proof.
  split; apply Contains_iff.
  - exists "closing server: '", ("', closing logs: '" ++ Error le ++ "'").
    reflexivity.
  - exists ("closing server: '" ++ Error se ++ "', closing logs: '"), "'".
    cbn [closingError Error].
    now rewrite !string_app_assoc.
Qed.

(** [Close] in parts: what it leaves and what it returns. *)
Lemma Close_parts (w : ShutdownWorld) (m : Command) :
  Command_Done (fst (Close w m)) = ChanClosed /\
  Command_Server (fst (Close w m)) = fst (Server_Close w (Command_Server m)) /\
  Command_Config (fst (Close w m)) = Command_Config m /\
  Command_StderrOut (fst (Close w m)) = Command_StderrOut m /\
  Command_ServerRef (fst (Close w m)) = Command_ServerRef m /\
  Command_CPUProfile (fst (Close w m)) = Command_CPUProfile m /\
  Command_CPUTime (fst (Close w m)) = Command_CPUTime m /\
  Command_Stderr (fst (Close w m)) = Command_Stderr m /\
  Command_Started (fst (Close w m)) = Command_Started m /\
  snd (Close w m) =
    match Command_Done m with
    | ChanClosed => Panic PanicCloseOfClosedChannel
    | ChanOpen =>
        Ok match serverCloseError w m, logCloseError w m with
           | Some se, Some le => Some (closingError se le)
           | _, Some le => Some le
           | se, None => se
           end
    end.
Proof.
  unfold Close, serverCloseError, logCloseError.
  destruct (Server_Close w (Command_Server m)) as [s' se].
  cbn [fst snd Command_Server Command_set_Server Command_Done].
  destruct (Command_Done m) eqn:Hd.
  - destruct se as [se|];
      destruct (match closeIfCloser w (Server_LogOutput s') with
                | Some closeErr => closeErr
                | None => None
                end) as [le|]; cbn; now repeat split.
  - cbn. now repeat split.
Qed.

(** [Close] reports every failure: it returns nil exactly when neither the
    server nor the log output failed to close; one failure alone is
    returned as it is; two failures are returned as one error whose text
    contains the text of both. *)
Theorem Close_reports_every_failure (w : ShutdownWorld) (m : Command) :
  Command_Done m = ChanOpen ->
  (snd (Close w m) = Ok None <->
     serverCloseError w m = None /\ logCloseError w m = None) /\
  (forall se, serverCloseError w m = Some se -> logCloseError w m = None ->
     snd (Close w m) = Ok (Some se)) /\
  (forall le, serverCloseError w m = None -> logCloseError w m = Some le ->
     snd (Close w m) = Ok (Some le)) /\
  (forall se le,
     serverCloseError w m = Some se -> logCloseError w m = Some le ->
     exists e,
       snd (Close w m) = Ok (Some e) /\
       Contains (Error e) (Error se) = true /\
       Contains (Error e) (Error le) = true).
Proof.
  intros Hd.
  destruct (Close_parts w m) as (_ & _ & _ & _ & _ & _ & _ & _ & _ & Hsnd).
  rewrite Hd in Hsnd. rewrite Hsnd.
  split; [|split; [|split]].
  - destruct (serverCloseError w m), (logCloseError w m); split;
      try discriminate; try (intros [H1 H2]; discriminate); now repeat split.
  - intros se -> ->. reflexivity.
  - intros le -> ->. reflexivity.
  - intros se le -> ->. exists (closingError se le).
    split; [reflexivity | apply closingError_mentions].
Qed.

(** [Close] closes the server and the log output before it closes [Done]:
    the server is the closed one on every path, also when closing [Done]
    panics.  It leaves [Done] closed, so a command closes once: a close on
    a command whose [Done] is closed panics, and so does every second
    close. *)
Theorem Close_once_only (w w' : ShutdownWorld) (m : Command) :
  Command_Done (fst (Close w m)) = ChanClosed /\
  Command_Server (fst (Close w m)) = fst (Server_Close w (Command_Server m)) /\
  (Command_Done m = ChanClosed ->
     snd (Close w m) = Panic PanicCloseOfClosedChannel) /\
  snd (Close w' (fst (Close w m))) = Panic PanicCloseOfClosedChannel.
Proof.
  destruct (Close_parts w m) as (Hd & Hs & _ & _ & _ & _ & _ & _ & _ & Hsnd).
  split; [exact Hd|]. split; [exact Hs|]. split.
  - intros H. now rewrite Hsnd, H.
  - destruct (Close_parts w' (fst (Close w m)))
      as (_ & _ & _ & _ & _ & _ & _ & _ & _ & Hsnd').
    now rewrite Hsnd', Hd.
Qed.

(** [Run] and [Close] signal on separate channels and do not disturb each
    other: [Run] leaves [Done] alone, [Close] leaves [Started] and the
    configuration alone, and a close after a run returns whatever the run
    did, also when the run panicked. *)
Theorem Close_after_any_Run (w : World) (sw : ShutdownWorld) (m : Command) :
  Command_Done (fst (Run w m)) = Command_Done m /\
  Command_Started (fst (Close sw m)) = Command_Started m /\
  Command_Config (fst (Close sw m)) = Command_Config m /\
  (Command_Done m = ChanOpen ->
     exists r, snd (Close sw (fst (Run w m))) = Ok r).
Proof.
  destruct (Run_by_body w m) as (_ & _ & _ & _ & _ & _ & _ & _ & Hd & _).
  destruct (Close_parts sw m) as (_ & _ & Hc & _ & _ & _ & _ & _ & Hs & _).
  split; [exact Hd|]. split; [exact Hs|]. split; [exact Hc|].
  intros Ho.
  destruct (Close_parts sw (fst (Run w m)))
    as (_ & _ & _ & _ & _ & _ & _ & _ & _ & Hsnd).
  rewrite Hsnd, Hd, Ho. eexists. reflexivity.
Qed.

(** The life of a command from [NewCommand]: the first run returns (given
    a variant other than gossip or a numeric default gossip port), the
    close after it returns, and both channels are closed in the end; a
    close without a run returns as well. *)
Theorem fresh_command_lifecycle (w : World) (sw : ShutdownWorld)
    (newServerRef : ptr) (newServer : Server) (newConfig : Config)
    (stdin : Reader) (stdout stderr : Writer) :
  BroadcasterType newConfig <> "gossip" \/ Atoi DefaultGossipPort <> None ->
  exists r1 r2 r3,
    snd (Run w (NewCommand newServerRef newServer newConfig
                           stdin stdout stderr)) = Ok r1 /\
    snd (Close sw (fst (Run w (NewCommand newServerRef newServer newConfig
                                          stdin stdout stderr)))) = Ok r2 /\
    Command_Started
      (fst (Close sw (fst (Run w (NewCommand newServerRef newServer newConfig
                                             stdin stdout stderr)))))
      = ChanClosed /\
    Command_Done
      (fst (Close sw (fst (Run w (NewCommand newServerRef newServer newConfig
                                             stdin stdout stderr)))))
      = ChanClosed /\
    snd (Close sw (NewCommand newServerRef newServer newConfig
                              stdin stdout stderr)) = Ok r3.
Proof.
  intros Hok.
  set (m := NewCommand newServerRef newServer newConfig stdin stdout stderr).
  assert (Hst : Command_Started m = ChanOpen) by reflexivity.
  assert (Hdn : Command_Done m = ChanOpen) by reflexivity.
  destruct (proj1 (Run_panic_cases w m Hst) Hok) as [r1 Hr1].
  destruct (Run_by_body w m) as (Hrs & _ & _ & _ & _ & _ & _ & _ & Hd & _).
  destruct (Close_parts sw (fst (Run w m)))
    as (Hcd & _ & _ & _ & _ & _ & _ & _ & Hcs & Hsnd).
  destruct (Close_parts sw m) as (_ & _ & _ & _ & _ & _ & _ & _ & _ & Hsnd3).
  rewrite Hd, Hdn in Hsnd. rewrite Hdn in Hsnd3.
  do 3 eexists.
  split; [exact Hr1|]. split; [exact Hsnd|].
  split; [now rewrite Hcs|]. split; [exact Hcd | exact Hsnd3].
Qed.

End ServerPackage.

(** ** The claims on sample inputs *)

Local Abbreviation samplePilosaCluster :=
  (PilosaCluster sampleGossipPort sampleDefaultHost 1 sampleSplitHostPort).
Local Abbreviation sampleRun :=
  (Run sampleGossipPort sampleDefaultHost 1 "/"%char sampleJoin
       sampleSplitHostPort).

Lemma shardOf_default_build_witness :
  Z.shiftr 16777216 24 = Z.shiftr 16777217 24 /\
  shardOf 16777216 = shardOf 16777217.
Proof.
  split; [reflexivity|].
  apply (proj1 (proj2 (proj2 shardOf_default_build))). reflexivity.
Defined.

Lemma normalizeHost_case_split_witness :
  (Contains "localhost" ":" = false /\
   normalizeHost "localhost" = ("localhost:", None)) /\
  (Contains "localhost:10101" ":" = true /\
   Contains "localhost:10101" "://" = false /\
   normalizeHost "localhost:10101" = ("localhost:10101", None)) /\
  (HasPrefix "http://localhost:10101" "http://" = true /\
   normalizeHost "http://localhost:10101" = ("localhost:10101", None)).
Proof.
  split; [|split].
  - split; [reflexivity|].
    apply (proj1 (normalizeHost_case_split "localhost")). reflexivity.
  - split; [reflexivity|]. split; [reflexivity|].
    apply (proj1 (proj2 (normalizeHost_case_split "localhost:10101")));
      reflexivity.
  - split; [reflexivity|].
    apply (proj1 (proj2 (proj2
             (normalizeHost_case_split "http://localhost:10101")))).
    reflexivity.
Defined.

(** The claim C1 as the specification words it fails on the variant name
    bogus: no broadcaster, a cluster with a static node set, and [Run]
    returns nil. *)
Lemma unknown_variant_is_no_error :
  BroadcasterType (sampleConfig "localhost:10101" "bogus") <> "static" /\
  BroadcasterType (sampleConfig "localhost:10101" "bogus") <> "http" /\
  BroadcasterType (sampleConfig "localhost:10101" "bogus") <> "gossip" /\
  PilosaBroadcaster (sampleConfig "localhost:10101" "bogus") 1%positive = None /\
  samplePilosaCluster (sampleConfig "localhost:10101" "bogus") =
    Ok (mkCluster [mkNode "node0:10101"; mkNode "node1:10101";
                   mkNode "node2:10101"] 2 (Some (NodeSetStatic []))) /\
  snd (sampleRun sampleWorld
         (sampleCommand (sampleConfig "localhost:10101" "bogus"))) = Ok None.
Proof.
  repeat split; try discriminate; reflexivity.
Qed.

Lemma unknown_variant_falls_back_to_static_witness :
  (BroadcasterType (sampleConfig "localhost:10101" "bogus") <> "static" /\
   BroadcasterType (sampleConfig "localhost:10101" "bogus") <> "http" /\
   BroadcasterType (sampleConfig "localhost:10101" "bogus") <> "gossip") /\
  samplePilosaCluster (sampleConfig "localhost:10101" "bogus") =
    Ok (mkCluster [mkNode "node0:10101"; mkNode "node1:10101";
                   mkNode "node2:10101"] 2 (Some (NodeSetStatic []))) /\
  snd (sampleRun sampleWorld
         (sampleCommand (sampleConfig "localhost:10101" "bogus"))) = Ok None.
Proof.
  assert (H1 : BroadcasterType (sampleConfig "localhost:10101" "bogus")
               <> "static") by discriminate.
  assert (H2 : BroadcasterType (sampleConfig "localhost:10101" "bogus")
               <> "http") by discriminate.
  assert (H3 : BroadcasterType (sampleConfig "localhost:10101" "bogus")
               <> "gossip") by discriminate.
  destruct (unknown_variant_falls_back_to_static
              sampleGossipPort sampleDefaultHost 1 "/"%char sampleJoin
              sampleSplitHostPort sampleWorld
              (sampleCommand (sampleConfig "localhost:10101" "bogus"))
              H1 H2 H3) as (Hcl & _ & Hrun).
  split; [now repeat split|]. split; [exact Hcl|].
  destruct (Hrun eq_refl eq_refl eq_refl eq_refl) as (mo & _ & Hr).
  exact Hr.
Defined.

Lemma variant_factory_witness :
  (BroadcasterType (sampleConfig "localhost:10101" "http") = "http" /\
   PilosaBroadcaster (sampleConfig "localhost:10101" "http") 1%positive
     = Some (NewHTTPBroadcaster 1%positive)) /\
  (BroadcasterType (sampleConfig "localhost:10101" "gossip") = "gossip" /\
   Atoi sampleGossipPort = Some 14000%Z /\
   exists cl g,
     samplePilosaCluster (sampleConfig "localhost:10101" "gossip") = Ok cl /\
     Cluster_NodeSet cl = Some (NodeSetGossip g)) /\
  (BroadcasterType (sampleConfig "localhost:10101" "static") = "static" /\
   exists cl,
     samplePilosaCluster (sampleConfig "localhost:10101" "static") = Ok cl /\
     Cluster_NodeSet cl = Some NewStaticNodeSet).
Proof.
  split; [|split].
  - split; [reflexivity|].
    apply (proj1 (variant_factory sampleGossipPort sampleDefaultHost 1
                    sampleSplitHostPort
                    (sampleConfig "localhost:10101" "http") 1%positive
                    14000)).
    reflexivity.
  - split; [reflexivity|]. split; [reflexivity|].
    apply (proj1 (proj2 (variant_factory sampleGossipPort sampleDefaultHost 1
                           sampleSplitHostPort
                           (sampleConfig "localhost:10101" "gossip")
                           1%positive 14000)));
      reflexivity.
  - split; [reflexivity|].
    apply (proj2 (proj2 (variant_factory sampleGossipPort sampleDefaultHost 1
                           sampleSplitHostPort
                           (sampleConfig "localhost:10101" "static")
                           1%positive 14000))).
    reflexivity.
Defined.

Lemma bad_scheme_host_aborts_Run_witness :
  Contains "ftp://localhost:10101" "://" = true /\
  HasPrefix "ftp://localhost:10101" "http://" = false /\
  normalizeHost "ftp://localhost:10101" =
    ("", Some (invalidSchemeError "ftp://localhost:10101")) /\
  snd (sampleRun sampleWorld
         (sampleCommand (sampleConfig "ftp://localhost:10101" "gossip")))
    = Ok (Some (invalidSchemeError "ftp://localhost:10101")) /\
  Server_Cluster
    (Command_Server
       (fst (sampleRun sampleWorld
               (sampleCommand (sampleConfig "ftp://localhost:10101" "gossip")))))
    = None.
Proof.
  split; [reflexivity|]. split; [reflexivity|].
  destruct (proj1 (bad_scheme_host_aborts_Run
                     sampleGossipPort sampleDefaultHost 1 "/"%char sampleJoin
                     sampleSplitHostPort)
              sampleWorld
              (sampleCommand (sampleConfig "ftp://localhost:10101" "gossip"))
              eq_refl eq_refl eq_refl)
    as (Hn & _ & Hrun & _ & Hcl).
  split; [exact Hn|]. split; [exact (Hrun eq_refl eq_refl) | exact Hcl].
Defined.

Lemma PilosaCluster_from_config_witness :
  Atoi sampleGossipPort = Some 14000%Z /\
  exists cl,
    samplePilosaCluster (sampleConfig "localhost:10101" "gossip") = Ok cl /\
    Cluster_ReplicaN cl = 2%Z /\
    map Node_Host (Cluster_Nodes cl)
      = ["node0:10101"; "node1:10101"; "node2:10101"].
Proof.
  split; [reflexivity|].
  destruct (PilosaCluster_from_config sampleGossipPort sampleDefaultHost 1
              sampleSplitHostPort (sampleConfig "localhost:10101" "gossip")
              14000 eq_refl) as (cl & Hcl & Hr & _ & Hn & _).
  exists cl. split; [exact Hcl|]. split; [exact Hr | exact Hn].
Defined.

Lemma AssociateBroadcaster_only_gossip_witness :
  (BroadcasterType (sampleConfig "localhost:10101" "gossip") = "gossip" /\
   exists g',
     AssociateBroadcaster sampleGossipServer
       (sampleConfig "localhost:10101" "gossip") =
       Ok (Server_set_Cluster sampleGossipServer
             (Some (Cluster_set_NodeSet
                      (mkCluster [mkNode "node0:10101"] 1 None)
                      (NodeSetGossip g')))) /\
     gns_broadcaster g' = Some (mkGossipBroadcaster 1%positive)) /\
  (BroadcasterType (sampleConfig "localhost:10101" "http") = "http" /\
   AssociateBroadcaster sampleGossipServer
     (sampleConfig "localhost:10101" "http") = Ok sampleGossipServer) /\
  (BroadcasterType (sampleConfig "localhost:10101" "static") <> "gossip" /\
   AssociateBroadcaster sampleGossipServer
     (sampleConfig "localhost:10101" "static") = Ok sampleGossipServer).
Proof.
  split; [|split].
  - split; [reflexivity|].
    destruct (proj1 (AssociateBroadcaster_only_gossip sampleGossipServer
                       (sampleConfig "localhost:10101" "gossip"))
                eq_refl _ _ _ eq_refl eq_refl eq_refl)
      as (g' & Ha & Hb & _).
    exists g'. split; [exact Ha | exact Hb].
  - split; [reflexivity|].
    apply (proj1 (proj2 (AssociateBroadcaster_only_gossip sampleGossipServer
                           (sampleConfig "localhost:10101" "http")))).
    reflexivity.
  - split; [discriminate|].
    apply (proj2 (proj2 (proj2
             (AssociateBroadcaster_only_gossip sampleGossipServer
                (sampleConfig "localhost:10101" "static"))))).
    discriminate.
Defined.

Lemma Run_errors_propagate_witness :
  Command_Started (sampleCommand (sampleConfig "localhost:10101" "gossip"))
    = ChanOpen /\
  Atoi sampleGossipPort = Some 14000%Z /\
  snd (sampleRun brokenWorld
         (sampleCommand (sampleConfig "localhost:10101" "gossip")))
    = Ok (Some (errorString "server.Open: address already in use")) /\
  main (Some (errorString "server.Open: address already in use"))
    = mkProcessExit ["server.Open: address already in use
"] 1.
Proof.
  split; [reflexivity|]. split; [reflexivity|].
  destruct (Run_errors_propagate
              sampleGossipPort sampleDefaultHost 1 "/"%char sampleJoin
              sampleSplitHostPort brokenWorld
              (sampleCommand (sampleConfig "localhost:10101" "gossip"))
              14000 eq_refl eq_refl)
    as (_ & _ & _ & Hopen & Hmain).
  destruct (Hopen "localhost:10101" eq_refl eq_refl eq_refl)
    as (mo & _ & He).
  pose proof (He (errorString "address already in use") eq_refl) as Hrun.
  split; [exact Hrun | exact (Hmain _ Hrun)].
Defined.

Lemma Run_without_home_witness :
  HasPrefix (Config_DataDir sampleHomeConfig) "~/" = true /\
  Getenv sampleWorld "HOME" = "" /\
  snd (sampleRun sampleWorld (sampleCommand sampleHomeConfig)) =
    Ok (Some (errorString
                "data directory not specified and no home dir available")) /\
  Command_Server (fst (sampleRun sampleWorld (sampleCommand sampleHomeConfig)))
    = sampleServer.
Proof.
  split; [reflexivity|]. split; [reflexivity|].
  destruct (Run_without_home
              sampleGossipPort sampleDefaultHost 1 "/"%char sampleJoin
              sampleSplitHostPort sampleWorld (sampleCommand sampleHomeConfig)
              eq_refl eq_refl eq_refl) as (Herr & Hsrv & _).
  split; [exact Herr | exact Hsrv].
Defined.

Lemma gossip_port_and_seed_witness :
  BroadcasterType (sampleConfig "localhost:10101" "gossip") = "gossip" /\
  Atoi sampleGossipPort = Some 14000%Z /\
  exists cl g,
    samplePilosaCluster (sampleConfig "localhost:10101" "gossip") = Ok cl /\
    Cluster_NodeSet cl = Some (NodeSetGossip g) /\
    gns_gossipPort g = 14000%Z /\
    gns_gossipSeed g = sampleDefaultHost.
Proof.
  split; [reflexivity|]. split; [reflexivity|].
  exact (gossip_port_and_seed sampleGossipPort sampleDefaultHost 1
           sampleSplitHostPort (sampleConfig "localhost:10101" "gossip")
           14000 eq_refl eq_refl).
Defined.

(** ** The further properties on sample inputs *)

Lemma normalizeHost_error_iff_witness :
  HasPrefix "http://localhost:10101" "http://" = true /\
  snd (normalizeHost "http://localhost:10101") = None /\
  snd (normalizeHost "ftp://localhost:10101") <> None /\
  normalizeHost "ftp://localhost:10101"
    = ("", Some (invalidSchemeError "ftp://localhost:10101")).
Proof.
  split; [reflexivity|]. split.
  - apply (proj1 (normalizeHost_error_iff "http://localhost:10101")).
    right. reflexivity.
  - split; [discriminate|].
    apply (proj2 (normalizeHost_error_iff "ftp://localhost:10101")).
    discriminate.
Defined.

Lemma normalizeHost_schemeless_stable_witness :
  Contains "localhost" "://" = false /\
  exists r,
    normalizeHost "localhost" = (r, None) /\
    HasPrefix r "localhost" = true /\
    Contains r ":" = true /\
    normalizeHost r = (r, None).
Proof.
  split; [reflexivity|].
  apply (normalizeHost_schemeless_stable "localhost"). reflexivity.
Defined.

Lemma PilosaBroadcaster_nil_iff_witness :
  (BroadcasterType (sampleConfig "localhost:10101" "bogus") <> "http" /\
   BroadcasterType (sampleConfig "localhost:10101" "bogus") <> "gossip" /\
   BroadcasterType (sampleConfig "localhost:10101" "bogus") <> "static") /\
  PilosaBroadcaster (sampleConfig "localhost:10101" "bogus") 1%positive = None /\
  BroadcasterType (sampleConfig "localhost:10101" "static") = "static".
Proof.
  assert (H : BroadcasterType (sampleConfig "localhost:10101" "bogus")
                <> "http" /\
              BroadcasterType (sampleConfig "localhost:10101" "bogus")
                <> "gossip" /\
              BroadcasterType (sampleConfig "localhost:10101" "bogus")
                <> "static")
    by (repeat split; discriminate).
  split; [exact H|]. split.
  - apply (proj1 (PilosaBroadcaster_nil_iff
                    (sampleConfig "localhost:10101" "bogus") 1%positive)).
    exact H.
  - apply (proj2 (proj2 (proj2
             (PilosaBroadcaster_nil_iff
                (sampleConfig "localhost:10101" "static") 1%positive)))).
    reflexivity.
Defined.

Lemma PilosaCluster_panic_iff_witness :
  (BroadcasterType (sampleConfig "localhost:10101" "gossip") = "gossip" /\
   Atoi "fourteen thousand" = None) /\
  (exists p,
     PilosaCluster "fourteen thousand" sampleDefaultHost 1 sampleSplitHostPort
       (sampleConfig "localhost:10101" "gossip") = Panic p) /\
  (exists cl,
     PilosaCluster "fourteen thousand" sampleDefaultHost 1 sampleSplitHostPort
       (sampleConfig "localhost:10101" "static") = Ok cl).
Proof.
  split; [split; reflexivity|]. split.
  - apply (proj1 (PilosaCluster_panic_iff "fourteen thousand"
                    sampleDefaultHost 1 sampleSplitHostPort
                    (sampleConfig "localhost:10101" "gossip"))).
    split; reflexivity.
  - apply (proj2 (proj2 (PilosaCluster_panic_iff "fourteen thousand"
                           sampleDefaultHost 1 sampleSplitHostPort
                           (sampleConfig "localhost:10101" "static")))).
    left. discriminate.
Defined.

Lemma AssociateBroadcaster_returns_iff_witness :
  (BroadcasterType (sampleConfig "localhost:10101" "gossip") = "gossip" /\
   Server_Cluster sampleServer = None /\
   AssociateBroadcaster sampleServer (sampleConfig "localhost:10101" "gossip")
     = Panic PanicNilDereference) /\
  (exists s',
     AssociateBroadcaster sampleGossipServer
       (sampleConfig "localhost:10101" "gossip") = Ok s').
Proof.
  split.
  - split; [reflexivity|]. split; [reflexivity|].
    apply (proj1 (proj2 (AssociateBroadcaster_returns_iff sampleServer
                           (sampleConfig "localhost:10101" "gossip"))));
      reflexivity.
  - apply (proj1 (AssociateBroadcaster_returns_iff sampleGossipServer
                    (sampleConfig "localhost:10101" "gossip"))).
    right. do 3 eexists. repeat split; reflexivity.
Defined.

Lemma AssociateBroadcaster_frame_witness :
  AssociateBroadcaster sampleGossipServer
    (sampleConfig "localhost:10101" "gossip")
    = Ok (Server_set_Cluster sampleGossipServer
            (Some (mkCluster [mkNode "node0:10101"] 1
                     (Some (NodeSetGossip
                              (mkGossipNodeSet "localhost:10101" "localhost"
                                 14000 "seed:14000"
                                 (Some (mkGossipBroadcaster 1%positive)))))))) /\
  Server_Host
    (Server_set_Cluster sampleGossipServer
       (Some (mkCluster [mkNode "node0:10101"] 1
                (Some (NodeSetGossip
                         (mkGossipNodeSet "localhost:10101" "localhost"
                            14000 "seed:14000"
                            (Some (mkGossipBroadcaster 1%positive))))))))
    = Server_Host sampleGossipServer.
Proof.
  split; [reflexivity|].
  apply (AssociateBroadcaster_frame sampleGossipServer _
           (sampleConfig "localhost:10101" "gossip") eq_refl).
Defined.

Lemma wiring_from_one_config_fits_witness :
  samplePilosaCluster (sampleConfig "localhost:10101" "gossip")
    = Ok (mkCluster [mkNode "node0:10101"; mkNode "node1:10101";
                     mkNode "node2:10101"] 2
            (Some (NewGossipNodeSet "localhost:10101" "localhost" 14000
                                    "localhost:10101"))) /\
  exists s',
    AssociateBroadcaster
      (Server_set_Cluster
         (Server_set_Broadcaster sampleServer
            (PilosaBroadcaster (sampleConfig "localhost:10101" "gossip")
                               1%positive))
         (Some (mkCluster [mkNode "node0:10101"; mkNode "node1:10101";
                           mkNode "node2:10101"] 2
                  (Some (NewGossipNodeSet "localhost:10101" "localhost" 14000
                                          "localhost:10101")))))
      (sampleConfig "localhost:10101" "gossip") = Ok s'.
Proof.
  split; [reflexivity|].
  destruct (wiring_from_one_config_fits
              sampleGossipPort sampleDefaultHost 1 sampleSplitHostPort
              sampleServer (sampleConfig "localhost:10101" "gossip")
              1%positive _ eq_refl) as (s' & Ha & _).
  exists s'. exact Ha.
Defined.

Lemma Run_panics_only_on_bad_gossip_port_witness :
  Command_Started (sampleCommand (sampleConfig "localhost:10101" "gossip"))
    = ChanOpen /\
  Atoi sampleGossipPort <> None /\
  exists r,
    snd (sampleRun sampleWorld
           (sampleCommand (sampleConfig "localhost:10101" "gossip"))) = Ok r.
Proof.
  split; [reflexivity|]. split; [discriminate|].
  apply (proj1 (Run_panics_only_on_bad_gossip_port
                  sampleGossipPort sampleDefaultHost 1 "/"%char sampleJoin
                  sampleSplitHostPort sampleWorld
                  (sampleCommand (sampleConfig "localhost:10101" "gossip"))
                  eq_refl)).
  right. discriminate.
Defined.

Lemma Run_once_only_witness :
  Command_Started
    (fst (sampleRun sampleWorld
            (sampleCommand (sampleConfig "localhost:10101" "static"))))
    = ChanClosed /\
  snd (sampleRun brokenWorld
         (fst (sampleRun sampleWorld
                 (sampleCommand (sampleConfig "localhost:10101" "static")))))
    = Panic PanicCloseOfClosedChannel.
Proof.
  split.
  - apply (proj1 (Run_once_only
                    sampleGossipPort sampleDefaultHost 1 "/"%char sampleJoin
                    sampleSplitHostPort sampleWorld brokenWorld
                    (sampleCommand (sampleConfig "localhost:10101" "static")))).
  - apply (proj1 (proj2 (Run_once_only
                    sampleGossipPort sampleDefaultHost 1 "/"%char sampleJoin
                    sampleSplitHostPort brokenWorld sampleWorld
                    (fst (sampleRun sampleWorld
                            (sampleCommand
                               (sampleConfig "localhost:10101" "static"))))))).
    reflexivity.
Defined.

Lemma Run_touches_only_DataDir_witness :
  HasPrefix (Config_DataDir sampleLoggingConfig) "~/" = true /\
  Getenv homeWorld "HOME" <> "" /\
  Config_DataDir
    (Command_Config (fst (sampleRun homeWorld (sampleCommand sampleLoggingConfig))))
    = "/home/pilosa/.pilosa".
Proof.
  split; [reflexivity|]. split; [discriminate|].
  apply (proj1 (proj2 (proj2 (proj2 (proj2 (proj2
           (Run_touches_only_DataDir
              sampleGossipPort sampleDefaultHost 1 "/"%char sampleJoin
              sampleSplitHostPort homeWorld
              (sampleCommand sampleLoggingConfig)))))))).
  - reflexivity.
  - discriminate.
Defined.

Lemma Run_error_taxonomy_witness :
  snd (sampleRun brokenWorld
         (sampleCommand (sampleConfig "localhost:10101" "static")))
    = Ok (Some (errorString "server.Open: address already in use")) /\
  exists s e0,
    snd (Server_Open brokenWorld s) = Some e0 /\
    errorString "server.Open: address already in use"
      = errorString ("server.Open: " ++ Error e0).
Proof.
  split; [reflexivity|].
  destruct (Run_error_taxonomy
              sampleGossipPort sampleDefaultHost 1 "/"%char sampleJoin
              sampleSplitHostPort brokenWorld
              (sampleCommand (sampleConfig "localhost:10101" "static"))
              (errorString "server.Open: address already in use") eq_refl)
    as [[H _] | [[H _] | [[H _] | H]]].
  - discriminate H.
  - now contradiction H.
  - discriminate H.
  - exact H.
Defined.

Lemma Run_log_failure_leaves_server_witness :
  Command_Started (sampleCommand sampleLoggingConfig) = ChanOpen /\
  Config_LogPath sampleLoggingConfig <> "" /\
  OpenFile homeWorld (Config_LogPath sampleLoggingConfig)
    = inr (errorString "permission denied") /\
  snd (sampleRun homeWorld (sampleCommand sampleLoggingConfig))
    = Ok (Some (errorString "permission denied")) /\
  Command_Server (fst (sampleRun homeWorld (sampleCommand sampleLoggingConfig)))
    = sampleServer.
Proof.
  split; [reflexivity|]. split; [discriminate|]. split; [reflexivity|].
  assert (Hp : Config_LogPath
                 (Command_Config (sampleCommand sampleLoggingConfig)) <> "")
    by discriminate.
  destruct (Run_log_failure_leaves_server
              sampleGossipPort sampleDefaultHost 1 "/"%char sampleJoin
              sampleSplitHostPort homeWorld (sampleCommand sampleLoggingConfig)
              (errorString "permission denied") eq_refl eq_refl Hp eq_refl)
    as (Hr & Hs & _).
  split; [exact Hr | exact Hs].
Defined.

Lemma Run_host_failure_state_witness :
  normalizeHost "ftp://localhost:10101"
    = ("", Some (invalidSchemeError "ftp://localhost:10101")) /\
  Server_Host
    (Command_Server
       (fst (sampleRun sampleWorld
               (sampleCommand (sampleConfig "ftp://localhost:10101" "static")))))
    = "" /\
  Server_Index
    (Command_Server
       (fst (sampleRun sampleWorld
               (sampleCommand (sampleConfig "ftp://localhost:10101" "static")))))
    = mkIndex "/var/lib/pilosa" ExpvarStatsClient.
Proof.
  split; [reflexivity|].
  destruct (Run_host_failure_state
              sampleGossipPort sampleDefaultHost 1 "/"%char sampleJoin
              sampleSplitHostPort sampleWorld
              (sampleCommand (sampleConfig "ftp://localhost:10101" "static"))
              "" (invalidSchemeError "ftp://localhost:10101")
              eq_refl eq_refl eq_refl eq_refl) as (Hh & Hi & _).
  split; [exact Hh | exact Hi].
Defined.

Lemma Run_opens_wired_server_witness :
  normalizeHost "http://localhost:10101" = ("localhost:10101", None) /\
  exists mo,
    sampleRun sampleWorld
      (sampleCommand (sampleConfig "http://localhost:10101" "http"))
      = deferred_close_Started (Run_initialize sampleWorld mo) /\
    Server_Host (Command_Server mo) = "localhost:10101" /\
    option_map Cluster_ReplicaN (Server_Cluster (Command_Server mo)) = Some 2%Z.
Proof.
  split; [reflexivity|].
  assert (Hok : BroadcasterType
                  (Command_Config
                     (sampleCommand
                        (sampleConfig "http://localhost:10101" "http")))
                <> "gossip" \/ Atoi sampleGossipPort <> None)
    by (left; discriminate).
  destruct (Run_opens_wired_server
              sampleGossipPort sampleDefaultHost 1 "/"%char sampleJoin
              sampleSplitHostPort sampleWorld
              (sampleCommand (sampleConfig "http://localhost:10101" "http"))
              "localhost:10101" eq_refl eq_refl eq_refl eq_refl Hok)
    as (mo & Hrun & Hh & _ & _ & _ & _ & _ & Hr).
  exists mo. split; [exact Hrun|]. split; [exact Hh | exact Hr].
Defined.

Lemma Run_output_witness :
  snd (sampleRun sampleWorld
         (sampleCommand (sampleConfig "localhost:10101" "static"))) = Ok None /\
  Command_StderrOut
    (fst (sampleRun sampleWorld
            (sampleCommand (sampleConfig "localhost:10101" "static"))))
    = ["Using data from: /var/lib/pilosa
"; "Listening as http://localhost:10101
"].
Proof.
  split; [reflexivity|].
  apply (proj1 (Run_output
                  sampleGossipPort sampleDefaultHost 1 "/"%char sampleJoin
                  sampleSplitHostPort sampleWorld
                  (sampleCommand (sampleConfig "localhost:10101" "static"))
                  eq_refl)).
  reflexivity.
Defined.

Lemma Run_gossip_wiring_witness :
  BroadcasterType (sampleConfig "http://localhost:10101" "gossip") = "gossip" /\
  Atoi sampleGossipPort = Some 14000%Z /\
  exists mo cl g,
    sampleRun sampleWorld
      (sampleCommand (sampleConfig "http://localhost:10101" "gossip"))
      = deferred_close_Started (Run_initialize sampleWorld mo) /\
    Server_Host (Command_Server mo) = "localhost:10101" /\
    Server_Cluster (Command_Server mo) = Some cl /\
    Cluster_NodeSet cl = Some (NodeSetGossip g) /\
    gns_broadcaster g = Some (mkGossipBroadcaster 1%positive) /\
    gns_name g = "http://localhost:10101".
Proof.
  split; [reflexivity|]. split; [reflexivity|].
  destruct (Run_gossip_wiring
              sampleGossipPort sampleDefaultHost 1 "/"%char sampleJoin
              sampleSplitHostPort sampleWorld
              (sampleCommand (sampleConfig "http://localhost:10101" "gossip"))
              "localhost:10101" 14000
              eq_refl eq_refl eq_refl eq_refl eq_refl eq_refl)
    as (mo & cl & g & Hrun & Hh & _ & Hcl & Hns & Hb & Hn & _).
  exists mo, cl, g. now repeat split.
Defined.

Lemma Close_reports_every_failure_witness :
  Command_Done (sampleCommand (sampleConfig "localhost:10101" "static"))
    = ChanOpen /\
  snd (Close sampleShutdownWorld
         (sampleCommand (sampleConfig "localhost:10101" "static"))) = Ok None /\
  exists e,
    snd (Close brokenShutdownWorld
           (sampleCommand (sampleConfig "localhost:10101" "static")))
      = Ok (Some e) /\
    Contains (Error e) "listener already closed" = true /\
    Contains (Error e) "stream already closed" = true.
Proof.
  split; [reflexivity|]. split.
  - apply (proj1 (Close_reports_every_failure sampleShutdownWorld
                    (sampleCommand (sampleConfig "localhost:10101" "static"))
                    eq_refl)).
    split; reflexivity.
  - exact (proj2 (proj2 (proj2
             (Close_reports_every_failure brokenShutdownWorld
                (sampleCommand (sampleConfig "localhost:10101" "static"))
                eq_refl)))
             (errorString "listener already closed")
             (errorString "stream already closed") eq_refl eq_refl).
Defined.

Lemma Close_once_only_witness :
  Command_Done
    (fst (Close sampleShutdownWorld
            (sampleCommand (sampleConfig "localhost:10101" "static"))))
    = ChanClosed /\
  snd (Close sampleShutdownWorld
         (fst (Close sampleShutdownWorld
                 (sampleCommand (sampleConfig "localhost:10101" "static")))))
    = Panic PanicCloseOfClosedChannel.
Proof.
  split.
  - apply (proj1 (Close_once_only sampleShutdownWorld sampleShutdownWorld
                    (sampleCommand (sampleConfig "localhost:10101" "static")))).
  - apply (proj1 (proj2 (proj2
             (Close_once_only sampleShutdownWorld sampleShutdownWorld
                (fst (Close sampleShutdownWorld
                        (sampleCommand
                           (sampleConfig "localhost:10101" "static")))))))).
    reflexivity.
Defined.

Lemma Close_after_any_Run_witness :
  Command_Done (sampleCommand (sampleConfig "ftp://localhost:10101" "gossip"))
    = ChanOpen /\
  exists r,
    snd (Close brokenShutdownWorld
           (fst (sampleRun brokenWorld
                   (sampleCommand
                      (sampleConfig "ftp://localhost:10101" "gossip")))))
      = Ok r.
Proof.
  split; [reflexivity|].
  apply (proj2 (proj2 (proj2
           (Close_after_any_Run
              sampleGossipPort sampleDefaultHost 1 "/"%char sampleJoin
              sampleSplitHostPort brokenWorld brokenShutdownWorld
              (sampleCommand
                 (sampleConfig "ftp://localhost:10101" "gossip")))))).
  reflexivity.
Defined.

Lemma fresh_command_lifecycle_witness :
  Atoi sampleGossipPort <> None /\
  exists r1 r2 r3,
    snd (sampleRun sampleWorld
           (NewCommand 1%positive sampleServer
              (sampleConfig "localhost:10101" "gossip") 0%nat
              (StreamWriter 1) (StreamWriter 2))) = Ok r1 /\
    snd (Close sampleShutdownWorld
           (fst (sampleRun sampleWorld
                   (NewCommand 1%positive sampleServer
                      (sampleConfig "localhost:10101" "gossip") 0%nat
                      (StreamWriter 1) (StreamWriter 2))))) = Ok r2 /\
    snd (Close sampleShutdownWorld
           (NewCommand 1%positive sampleServer
              (sampleConfig "localhost:10101" "gossip") 0%nat
              (StreamWriter 1) (StreamWriter 2))) = Ok r3.
Proof.
  split; [discriminate|].
  assert (Hok : BroadcasterType (sampleConfig "localhost:10101" "gossip")
                <> "gossip" \/ Atoi sampleGossipPort <> None)
    by (right; discriminate).
  destruct (fresh_command_lifecycle
              sampleGossipPort sampleDefaultHost 1 "/"%char sampleJoin
              sampleSplitHostPort sampleWorld sampleShutdownWorld
              1%positive sampleServer
              (sampleConfig "localhost:10101" "gossip") 0%nat
              (StreamWriter 1) (StreamWriter 2) Hok)
    as (r1 & r2 & r3 & H1 & H2 & _ & _ & H3).
  exists r1, r2, r3. now repeat split.
Defined.
